(** * Typing-speed monitor: the in-memory aggregation store

    A shallow embedding of [src/fastapi_backend/src/api/storage.py]
    (with the data classes of [schemas.py]) and the properties of the
    store's operations.

    Conventions of the embedding:
    - Python [int] is [Z] (unbounded);
    - Python [float] is IEEE-754 binary64, given by the executable
      specification [spec_float] of the standard library at precision 53
      and maximal exponent 1024;
    - a raised exception is the [Raise] outcome of [result]; an operation
      that may have mutated the store before raising returns the store
      together with its outcome;
    - the registry [dict] is a finite map together with the insertion
      order of its keys;
    - the [ge=0] constraints of the [SessionSummary] model are checked
      where the model is built, a failed check being [ValidationError];
    - the clock and the UUID generator are inputs of the operations that
      read them. *)

From Stdlib Require Import ZArith Bool Ascii.
From Stdlib Require Import Floats.SpecFloat.
From stdpp Require Import gmap strings list fin_maps.

Local Open Scope Z_scope.

(** ** Exceptions and outcomes *)

Inductive exn : Type :=
  | KeyError (msg : string)
  | ValueError (msg : string)
  | OverflowError (msg : string)
  | ZeroDivisionError (msg : string)
  | ValidationError (msg : string).

Inductive result (A : Type) : Type :=
  | Ok (a : A)
  | Raise (e : exn).

Arguments Ok {A} a.
Arguments Raise {A} e.

Global Instance result_ret : MRet result := λ A a, Ok a.

Global Instance result_bind : MBind result := λ A B k r,
  match r with
  | Ok a => k a
  | Raise e => Raise e
  end.

Global Instance result_fmap : FMap result := λ A B f r,
  match r with
  | Ok a => Ok (f a)
  | Raise e => Raise e
  end.

Definition is_validation_failure {A} (r : result A) : bool :=
  match r with
  | Raise (ValueError _) => true
  | _ => false
  end.

Definition is_not_found {A} (r : result A) : bool :=
  match r with
  | Raise (KeyError _) => true
  | _ => false
  end.

(** ** Python floats *)

Module PyFloat.

Definition float : Type := spec_float.

Definition prec : Z := 53.
Definition emax : Z := 1024.

(** A float literal with an integral value. *)
Definition lit (n : Z) : float := binary_normalize prec emax n 0 false.

Definition zero : float := S754_zero false.

Definition is_zero (x : float) : bool :=
  match x with
  | S754_zero _ => true
  | _ => false
  end.

Definition is_nan (x : float) : bool :=
  match x with
  | S754_nan => true
  | _ => false
  end.

(** Conversion of an [int] operand of a mixed [int]/[float] operation:
    correctly rounded (ties to even); an [int] whose rounding leaves the
    range of binary64 raises [OverflowError]. *)
Definition of_int (n : Z) : result float :=
  match binary_normalize prec emax n 0 false with
  | S754_infinity _ => Raise (OverflowError "int too large to convert to float")
  | x => Ok x
  end.

(** [a / b] on floats: a zero divisor raises, otherwise the IEEE quotient. *)
Definition truediv (a b : float) : result float :=
  if is_zero b then Raise (ZeroDivisionError "float division by zero")
  else Ok (SFdiv prec emax a b).

(** [n / b] for an [int] n and a [float] b. *)
Definition int_truediv (n : Z) (b : float) : result float :=
  a ← of_int n; truediv a b.

(** [a == b] and [a <= b] on floats. *)
Definition eqb (a b : float) : bool := SFeqb a b.
Definition leb (a b : float) : bool := SFleb a b.

End PyFloat.

(** ** Python strings

    A [str] is a [string], its characters being the values of [ascii].
    Which characters [str.strip] takes for white space is a parameter. *)

Module PyStr.
Section strip.
Variable isspace : ascii → bool.

Fixpoint lstrip_chars (cs : list ascii) : list ascii :=
  match cs with
  | [] => []
  | c :: cs' => if isspace c then lstrip_chars cs' else cs
  end.

(** [s.strip()]: the string without its leading and trailing white space. *)
Definition strip (s : string) : string :=
  String.string_of_list_ascii
    (reverse (lstrip_chars (reverse (lstrip_chars (String.list_ascii_of_string s))))).

End strip.

(** [not s]: the empty string is the only falsy one. *)
Definition falsy (s : string) : bool := bool_decide (s = "").

End PyStr.

(** ** [_compute_wpm] *)

Definition _compute_wpm (total_chars total_duration_ms : Z) : result PyFloat.float :=
  if total_duration_ms <=? 0 then Ok PyFloat.zero
  else
    words ← PyFloat.int_truediv total_chars (PyFloat.lit 5);
    minutes ← PyFloat.int_truediv total_duration_ms (PyFloat.lit 60000);
    PyFloat.truediv words minutes.


(** ** Timestamps

    A [datetime] is its calendar fields, counted in microseconds, and its
    [tzinfo]: [None] for a naive value, [Some off] for an aware value in a
    zone [off] microseconds ahead of UTC. *)

Module datetime.

Record t : Type := mk { wall : Z; tzinfo : option Z }.

(** The values held in [_SessionData.last_updated]: it is only ever
    assigned [datetime.now(timezone.utc)] or a [max] of values whose
    [tzinfo] is [timezone.utc], so it is kept as the microsecond count
    of a UTC-aware value. Two such values compare by their counts. *)
Definition utc : Type := Z.

(** [d.replace(tzinfo=timezone.utc)]: the calendar fields are kept and
    relabelled as UTC; no offset is applied. *)
Definition replace_tzinfo_utc (d : t) : utc := wall d.

(** [d.astimezone(timezone.utc)] on an aware value: the same instant in
    UTC. A naive value is read as UTC. *)
Definition astimezone_utc (d : t) : utc :=
  match tzinfo d with
  | Some off => wall d - off
  | None => wall d
  end.

(** [max(a, b)]: the first argument unless the second is strictly later. *)
Definition max (a b : utc) : utc := if b >? a then b else a.

End datetime.

(** ** The data classes of [schemas.py] *)

Module TypingSample.
Record t : Type := mk {
  session_id : string;
  timestamp : datetime.t;
  chars_typed : Z;
  duration_ms : Z
}.

(** The [field_validator] of [session_id]. *)
Definition session_id_not_empty (isspace : ascii → bool) (v : string) : result string :=
  if PyStr.falsy v || PyStr.falsy (PyStr.strip isspace v)
  then Raise (ValueError "session_id must be a non-empty string")
  else Ok v.

(** The samples the model accepts: the validator of [session_id] passes
    and the two counters meet their [ge=0] constraints. *)
Definition accepted (isspace : ascii → bool) (s : t) : bool :=
  match session_id_not_empty isspace (session_id s) with
  | Ok _ => (0 <=? chars_typed s) && (0 <=? duration_ms s)
  | Raise _ => false
  end.
End TypingSample.

Module SessionCreate.
Record t : Type := mk {
  user_id : option string;
  session_id : option string
}.
End SessionCreate.

Module SubmissionRequest.
Record t : Type := mk {
  session_id : string;
  samples : list TypingSample.t
}.

(** The [field_validator] of [samples]. *)
Definition samples_not_empty (v : list TypingSample.t) : result (list TypingSample.t) :=
  match v with
  | [] => Raise (ValueError "samples must be a non-empty list")
  | _ :: _ => Ok v
  end.

(** The requests the model accepts: the validator of [samples] passes and
    every sample is accepted by its own model. *)
Definition accepted (isspace : ascii → bool) (r : t) : bool :=
  match samples_not_empty (samples r) with
  | Ok v => forallb (TypingSample.accepted isspace) v
  | Raise _ => false
  end.
End SubmissionRequest.

Module SpeedStat.
Record t : Type := mk {
  session_id : string;
  wpm : PyFloat.float;
  accuracy : option PyFloat.float;
  last_updated : datetime.utc
}.
End SpeedStat.

Module SessionSummary.
Record t : Type := mk {
  session_id : string;
  total_chars : Z;
  total_duration_ms : Z;
  avg_wpm : PyFloat.float;
  samples_count : Z;
  last_updated : datetime.utc
}.

(** The [ge=0] constraints of the fields. *)
Definition constraints (s : t) : bool :=
  (0 <=? total_chars s) && (0 <=? total_duration_ms s)
  && PyFloat.leb PyFloat.zero (avg_wpm s) && (0 <=? samples_count s).

(** [SessionSummary(...)]: the model is built if its fields pass their
    constraints. *)
Definition __init__ (session_id : string) (total_chars total_duration_ms : Z)
    (avg_wpm : PyFloat.float) (samples_count : Z) (last_updated : datetime.utc)
    : result t :=
  let s := mk session_id total_chars total_duration_ms avg_wpm samples_count
              last_updated in
  if constraints s then Ok s
  else Raise (ValidationError "validation error for SessionSummary").
End SessionSummary.

(** ** [_SessionData] *)

Module _SessionData.

Record t : Type := mk {
  session_id : string;
  total_chars : Z;
  total_duration_ms : Z;
  samples_count : Z;
  last_updated : datetime.utc
}.

(** [now] is the value of [datetime.now(timezone.utc)]. *)
Definition __init__ (session_id : string) (now : datetime.utc) : t :=
  mk session_id 0 0 0 now.

Definition to_summary (self : t) : result SessionSummary.t :=
  avg_wpm ← _compute_wpm (total_chars self) (total_duration_ms self);
  SessionSummary.__init__ (session_id self) (total_chars self)
    (total_duration_ms self) avg_wpm (samples_count self) (last_updated self).

End _SessionData.

(** ** Python dictionaries with string keys

    The entries as a finite map, and the keys in insertion order (the
    order in which [values()] yields the entries). *)

Module PyDict.
Section dict.
Context {V : Type}.

Record t : Type := mk { items : gmap string V; order : list string }.

Definition empty : t := mk ∅ [].

(** [k in d] *)
Definition contains (k : string) (d : t) : bool :=
  bool_decide (is_Some (items d !! k)).

(** [d[k]] as an option: [None] where Python raises [KeyError]. *)
Definition get (k : string) (d : t) : option V := items d !! k.

(** [d[k] = v]: a new key goes last, an existing key keeps its place. *)
Definition setitem (k : string) (v : V) (d : t) : t :=
  mk (<[k := v]> (items d))
     (if contains k d then order d else order d ++ [k]).

(** [del d[k]] for a key that is present. *)
Definition delitem (k : string) (d : t) : t :=
  mk (delete k (items d)) (filter (λ k', k' ≠ k) (order d)).

(** [d.values()] *)
Definition values (d : t) : list V :=
  omap (λ k, items d !! k) (order d).

(** The key list names exactly the entries, each once. *)
Definition wf (d : t) : Prop :=
  NoDup (order d) ∧ ∀ k, k ∈ order d ↔ is_Some (items d !! k).

End dict.
Arguments t V : clear implicits.
End PyDict.

(** ** UUIDs

    [uuid4()] is an input of the operation that calls it: a 128-bit
    integer. [str] prints it as 32 lower-case hexadecimal digits in
    groups of 8-4-4-4-12. *)

Module UUID.

Definition t : Type := N.

Definition hex_digit (d : N) : ascii :=
  match d with
  | 0 => "0" | 1 => "1" | 2 => "2" | 3 => "3" | 4 => "4" | 5 => "5"
  | 6 => "6" | 7 => "7" | 8 => "8" | 9 => "9" | 10 => "a" | 11 => "b"
  | 12 => "c" | 13 => "d" | 14 => "e" | _ => "f"
  end%N%char.

(** The [len] lowest hexadecimal digits of [n], most significant first,
    in front of [acc]. *)
Fixpoint hex (len : nat) (n : N) (acc : string) : string :=
  match len with
  | O => acc
  | S len' => hex len' (n / 16)%N (String (hex_digit (n mod 16)%N) acc)
  end.

Definition str (u : t) : string :=
  let h := hex 32 u "" in
  (String.substring 0 8 h ++ "-" ++ String.substring 8 4 h ++ "-" ++ String.substring 12 4 h
     ++ "-" ++ String.substring 16 4 h ++ "-" ++ String.substring 20 12 h)%string.

End UUID.

(** ** [InMemoryTypingStore]

    Every operation runs under the store's lock, so each is one atomic
    step on the registry. An operation takes the registry and returns the
    registry it leaves behind together with its outcome. *)

Module InMemoryTypingStore.

Import _SessionData.

Abbreviation t := (PyDict.t _SessionData.t).

Definition __init__ : t := PyDict.empty.

(** [session_id or str(uuid4())]: [None] and the empty string are both
    falsy. *)
Definition sid_or_uuid (session_id : option string) (uuid : UUID.t) : string :=
  match session_id with
  | Some s => if bool_decide (s = "") then UUID.str uuid else s
  | None => UUID.str uuid
  end.

Definition create_or_get_session (session_id : option string)
    (uuid : UUID.t) (now : datetime.utc) (self : t) : t * string :=
  let sid := sid_or_uuid session_id uuid in
  if negb (PyDict.contains sid self)
  then (PyDict.setitem sid (_SessionData.__init__ sid now) self, sid)
  else (self, sid).

(** The four assignments of the loop body of [add_samples]. *)
Definition accumulate (s : TypingSample.t) (sess : _SessionData.t) : _SessionData.t :=
  let ts := TypingSample.timestamp s in
  mk (session_id sess)
     (total_chars sess + TypingSample.chars_typed s)
     (total_duration_ms sess + TypingSample.duration_ms s)
     (samples_count sess + 1)
     (datetime.max (last_updated sess)
        (match datetime.tzinfo ts with
         | Some _ => datetime.replace_tzinfo_utc ts
         | None => datetime.replace_tzinfo_utc ts
         end)).

(** The loop of [add_samples] on the session object: the object as the
    loop leaves it, and [Raise] if a sample stopped it. *)
Fixpoint add_samples_loop (session_id : string) (samples : list TypingSample.t)
    (sess : _SessionData.t) : _SessionData.t * result () :=
  match samples with
  | [] => (sess, Ok ())
  | s :: rest =>
      if bool_decide (TypingSample.session_id s ≠ session_id)
      then (sess, Raise (ValueError "sample.session_id does not match request session_id"))
      else if (TypingSample.chars_typed s <? 0) || (TypingSample.duration_ms s <? 0)
      then (sess, Raise (ValueError "chars_typed and duration_ms must be non-negative"))
      else add_samples_loop session_id rest (accumulate s sess)
  end.

Definition touch (now : datetime.utc) (sess : _SessionData.t) : _SessionData.t :=
  mk (session_id sess) (total_chars sess) (total_duration_ms sess)
     (samples_count sess) (datetime.max (last_updated sess) now).

(** [now] is the value of [_now_utc()]. *)
Definition add_samples (session_id : string) (samples : list TypingSample.t)
    (now : datetime.utc) (self : t) : t * result SessionSummary.t :=
  match samples with
  | [] => (self, Raise (ValueError "samples must be non-empty"))
  | _ :: _ =>
      match PyDict.get session_id self with
      | None => (self, Raise (KeyError "session not found"))
      | Some sess =>
          match add_samples_loop session_id samples sess with
          | (sess', Raise e) => (PyDict.setitem session_id sess' self, Raise e)
          | (sess', Ok _) =>
              let sess'' := touch now sess' in
              (PyDict.setitem session_id sess'' self, to_summary sess'')
          end
      end
  end.

Definition get_session_summary (session_id : string) (self : t)
    : result SessionSummary.t :=
  match PyDict.get session_id self with
  | None => Raise (KeyError "session not found")
  | Some sess => to_summary sess
  end.

Definition get_session_stats (session_id : string) (self : t)
    : result SpeedStat.t :=
  match PyDict.get session_id self with
  | None => Raise (KeyError "session not found")
  | Some sess =>
      wpm ← _compute_wpm (total_chars sess) (total_duration_ms sess);
      mret (SpeedStat.mk session_id wpm None (last_updated sess))
  end.

Definition list_sessions (self : t) : result (list SessionSummary.t) :=
  mapM to_summary (PyDict.values self).

Definition clear_session (session_id : string) (self : t) : t * result () :=
  match PyDict.get session_id self with
  | None => (self, Raise (KeyError "session not found"))
  | Some _ => (PyDict.delitem session_id self, Ok ())
  end.

End InMemoryTypingStore.

(** ** The router of [routers/typing.py]

    The handlers work on the one store of the application. A handler
    returns its response body, raises [HTTPException], or lets an
    exception it does not catch propagate. *)

Inductive response (A : Type) : Type :=
  | Return (body : A)
  | HTTPException (status_code : Z) (detail : string)
  | Propagate (e : exn).

Arguments Return {A} body.
Arguments HTTPException {A} status_code detail.
Arguments Propagate {A} e.

Module status.
Definition HTTP_200_OK : Z := 200.
Definition HTTP_400_BAD_REQUEST : Z := 400.
Definition HTTP_404_NOT_FOUND : Z := 404.
End status.

(** [except KeyError] and [except ValueError as e] with [str(e)]: the
    validation error of a model is a [ValueError] too. *)
Definition is_KeyError (e : exn) : bool :=
  match e with
  | KeyError _ => true
  | _ => false
  end.

Definition as_ValueError (e : exn) : option string :=
  match e with
  | ValueError msg | ValidationError msg => Some msg
  | _ => None
  end.

Module typing_router.

Definition create_session (payload : SessionCreate.t) (uuid : UUID.t)
    (now : datetime.utc) (store : InMemoryTypingStore.t)
    : InMemoryTypingStore.t * list (string * string) :=
  let '(store', session_id) :=
    InMemoryTypingStore.create_or_get_session (SessionCreate.session_id payload)
      uuid now store in
  (store', [("session_id", session_id)]).

(** The validation loop of [submit_samples]: the exception of the first
    sample that fails a check, if any. *)
Fixpoint check_samples (session_id : string) (samples : list TypingSample.t)
    : option (Z * string) :=
  match samples with
  | [] => None
  | s :: rest =>
      if bool_decide (TypingSample.session_id s ≠ session_id)
      then Some (status.HTTP_400_BAD_REQUEST,
                 "sample.session_id does not match request.session_id")
      else if (TypingSample.chars_typed s <? 0) || (TypingSample.duration_ms s <? 0)
      then Some (status.HTTP_400_BAD_REQUEST,
                 "chars_typed and duration_ms must be non-negative")
      else check_samples session_id rest
  end.

Definition submit_samples (request : SubmissionRequest.t) (now : datetime.utc)
    (store : InMemoryTypingStore.t)
    : InMemoryTypingStore.t * response SessionSummary.t :=
  match SubmissionRequest.samples request with
  | [] => (store, HTTPException status.HTTP_400_BAD_REQUEST "samples must be non-empty")
  | _ :: _ =>
      match check_samples (SubmissionRequest.session_id request)
              (SubmissionRequest.samples request) with
      | Some (code, detail) => (store, HTTPException code detail)
      | None =>
          match InMemoryTypingStore.add_samples (SubmissionRequest.session_id request)
                  (SubmissionRequest.samples request) now store with
          | (store', Ok summary) => (store', Return summary)
          | (store', Raise e) =>
              if is_KeyError e
              then (store', HTTPException status.HTTP_404_NOT_FOUND "session not found")
              else match as_ValueError e with
                   | Some msg => (store', HTTPException status.HTTP_400_BAD_REQUEST msg)
                   | None => (store', Propagate e)
                   end
          end
      end
  end.

(** [try: return f() except KeyError: raise HTTPException(404, ...)] *)
Definition not_found_as_404 {A} (r : result A) : response A :=
  match r with
  | Ok a => Return a
  | Raise e =>
      if is_KeyError e
      then HTTPException status.HTTP_404_NOT_FOUND "session not found"
      else Propagate e
  end.

Definition get_summary (session_id : string) (store : InMemoryTypingStore.t)
    : response SessionSummary.t :=
  not_found_as_404 (InMemoryTypingStore.get_session_summary session_id store).

Definition get_stats (session_id : string) (store : InMemoryTypingStore.t)
    : response SpeedStat.t :=
  not_found_as_404 (InMemoryTypingStore.get_session_stats session_id store).

Definition list_sessions (store : InMemoryTypingStore.t)
    : response (list SessionSummary.t) :=
  match InMemoryTypingStore.list_sessions store with
  | Ok l => Return l
  | Raise e => Propagate e
  end.

Definition delete_session (session_id : string) (store : InMemoryTypingStore.t)
    : InMemoryTypingStore.t * response (list (string * string)) :=
  let '(store', r) := InMemoryTypingStore.clear_session session_id store in
  (store', not_found_as_404 ((λ _, [("status", "deleted")]) <$> r)).

End typing_router.

(** ** Calls on the store *)

Inductive call : Type :=
  | CreateOrGetSession (session_id : option string) (uuid : UUID.t) (now : datetime.utc)
  | AddSamples (session_id : string) (samples : list TypingSample.t) (now : datetime.utc)
  | GetSessionSummary (session_id : string)
  | GetSessionStats (session_id : string)
  | ListSessions
  | ClearSession (session_id : string).

(** The registry after a call. *)
Definition exec (c : call) (st : InMemoryTypingStore.t) : InMemoryTypingStore.t :=
  match c with
  | CreateOrGetSession sid uuid now =>
      (InMemoryTypingStore.create_or_get_session sid uuid now st).1
  | AddSamples sid samples now =>
      (InMemoryTypingStore.add_samples sid samples now st).1
  | GetSessionSummary _ | GetSessionStats _ | ListSessions => st
  | ClearSession sid => (InMemoryTypingStore.clear_session sid st).1
  end.

Definition run (cs : list call) (st : InMemoryTypingStore.t) : InMemoryTypingStore.t :=
  foldl (λ st c, exec c st) st cs.

(** The registries the program can be in: those a sequence of calls
    builds from the empty registry of [__init__]. *)
Inductive reachable : InMemoryTypingStore.t → Prop :=
  | reachable_init : reachable InMemoryTypingStore.__init__
  | reachable_exec c st : reachable st → reachable (exec c st).

(** * Notions of the specification *)

(** A sample the loop accepts for the session [sid]. *)
Definition valid_sample (sid : string) (s : TypingSample.t) : bool :=
  bool_decide (TypingSample.session_id s = sid)
  && (0 <=? TypingSample.chars_typed s) && (0 <=? TypingSample.duration_ms s).

(** [sum(f(s) for s in samples)] *)
Definition sum_of (f : TypingSample.t → Z) (samples : list TypingSample.t) : Z :=
  foldr (λ s acc, f s + acc) 0 samples.

(** The latest of [t0] and the values [f s]. *)
Definition latest (f : TypingSample.t → datetime.utc) (t0 : datetime.utc)
    (samples : list TypingSample.t) : datetime.utc :=
  foldr (λ s acc, Z.max (f s) acc) t0 samples.

(** Field-wise order on session aggregates. *)
Definition session_le (a b : _SessionData.t) : Prop :=
  _SessionData.total_chars a ≤ _SessionData.total_chars b
  ∧ _SessionData.total_duration_ms a ≤ _SessionData.total_duration_ms b
  ∧ _SessionData.samples_count a ≤ _SessionData.samples_count b
  ∧ _SessionData.last_updated a ≤ _SessionData.last_updated b.

(** Every entry is filed under the non-empty id it carries, and its
    counters are non-negative. *)
Definition wf_store (st : InMemoryTypingStore.t) : Prop :=
  PyDict.wf st
  ∧ ∀ k d, PyDict.get k st = Some d →
      k ≠ "" ∧ _SessionData.session_id d = k
      ∧ 0 ≤ _SessionData.total_chars d
      ∧ 0 ≤ _SessionData.total_duration_ms d
      ∧ 0 ≤ _SessionData.samples_count d.

(** The formula of the specification,
    [(total_chars / 5) / (total_duration_ms / 60000)], in Python's own
    arithmetic. *)
Definition wpm_formula (total_chars total_duration_ms : Z) : result PyFloat.float :=
  words ← PyFloat.int_truediv total_chars (PyFloat.lit 5);
  minutes ← PyFloat.int_truediv total_duration_ms (PyFloat.lit 60000);
  PyFloat.truediv words minutes.

(** The call deletes the session [sid]. *)
Definition clears (sid : string) (c : call) : bool :=
  match c with
  | ClearSession sid' => bool_decide (sid' = sid)
  | _ => false
  end.

(** The [last_updated] the specification asks of an append: the latest
    of the value before the call, the submitted timestamps as instants
    of UTC, and the time of the call. *)
Definition last_updated_spec (before : datetime.utc)
    (samples : list TypingSample.t) (now : datetime.utc) : datetime.utc :=
  Z.max (latest (λ s, datetime.astimezone_utc (TypingSample.timestamp s)) before samples) now.

(** A timestamp whose calendar fields already are its UTC instant: a
    naive one, or an aware one at offset zero. *)
Definition in_utc (d : datetime.t) : bool :=
  match datetime.tzinfo d with
  | Some off => off =? 0
  | None => true
  end.

(** All-or-nothing refusal of a batch: a validation failure, and the
    session exactly as it was. *)
Definition refused_unchanged (sid : string) (samples : list TypingSample.t)
    (now : datetime.utc) (st : InMemoryTypingStore.t) : Prop :=
  ∀ sess, PyDict.get sid st = Some sess →
    is_validation_failure (InMemoryTypingStore.add_samples sid samples now st).2 = true
    ∧ PyDict.get sid (InMemoryTypingStore.add_samples sid samples now st).1 = Some sess.

(** [create_or_get_session] registers a zero-initialised session under
    the very id it was given and returns that id. *)
Definition registers_exact_id (sid : string) (uuid : UUID.t)
    (now : datetime.utc) (st : InMemoryTypingStore.t) : Prop :=
  (InMemoryTypingStore.create_or_get_session (Some sid) uuid now st).2 = sid
  ∧ PyDict.get sid (InMemoryTypingStore.create_or_get_session (Some sid) uuid now st).1
    = Some (_SessionData.mk sid 0 0 0 now).

(** A session that has counted no sample has both totals at zero. *)
Definition empty_sessions_are_zero (st : InMemoryTypingStore.t) : Prop :=
  ∀ k d, PyDict.get k st = Some d →
    0 ≤ _SessionData.samples_count d
    ∧ (_SessionData.samples_count d = 0 →
       _SessionData.total_chars d = 0 ∧ _SessionData.total_duration_ms d = 0).

(** ** A running example: the session "s1" *)

Module Scenario.
Import InMemoryTypingStore.

(** 2023-11-14T22:13:20Z and one hour, in microseconds. *)
Definition t0 : datetime.utc := 1700000000000000.
Definition hour : Z := 3600000000.

Definition naive (w : Z) : datetime.t := datetime.mk w None.

Definition store_s1 : InMemoryTypingStore.t :=
  exec (CreateOrGetSession (Some "s1") 7%N t0) InMemoryTypingStore.__init__.

Definition one_minute_50 : list TypingSample.t :=
  [TypingSample.mk "s1" (naive (t0 + 1)) 50 60000].

Definition store_s1_50 : InMemoryTypingStore.t :=
  exec (AddSamples "s1" one_minute_50 (t0 + 2)) store_s1.

(** A batch whose second sample names another session. *)
Definition mixed_batch : list TypingSample.t :=
  [TypingSample.mk "s1" (naive (t0 + 1)) 5 1000;
   TypingSample.mk "s2" (naive (t0 + 1)) 5 1000].

(** A sample stamped 23:13:20+05:00, that is 18:13:20Z, submitted at
    22:13:20Z. *)
Definition ahead_of_utc : list TypingSample.t :=
  [TypingSample.mk "s1" (datetime.mk (t0 + hour) (Some (5 * hour))) 5 1000].

End Scenario.

(** * Properties *)

(** ** Outcomes *)

Lemma fmap_Ok {A B} (f : A → B) (a : A) : f <$> Ok a = Ok (f a).
Proof. reflexivity. Qed.

Lemma bind_Ok {A B} (k : A → result B) (a : A) : (Ok a ≫= k) = k a.
Proof. reflexivity. Qed.

Lemma fmap_bind_ret {A B C} (r : result A) (g : A → B) (f : B → C) :
  f <$> (a ← r; mret (g a)) = (λ a, f (g a)) <$> r.
Proof. by destruct r. Qed.

(** ** Timestamps *)

Lemma datetime_max_Zmax (a b : datetime.utc) : datetime.max a b = Z.max a b.
Proof. unfold datetime.max. destruct (Z.gtb_spec b a); lia. Qed.

Lemma datetime_max_ge_l (a b : datetime.utc) : a ≤ datetime.max a b.
Proof. rewrite datetime_max_Zmax. lia. Qed.

Lemma datetime_max_ge_r (a b : datetime.utc) : b ≤ datetime.max a b.
Proof. rewrite datetime_max_Zmax. lia. Qed.

(** ** Dictionaries *)

Section dict_facts.
Context {V : Type}.
Implicit Types (d : PyDict.t V) (k : string) (v : V).

Lemma contains_Some d k v : PyDict.get k d = Some v → PyDict.contains k d = true.
Proof. intros H. apply bool_decide_eq_true. by exists v. Qed.

Lemma contains_None d k : PyDict.get k d = None → PyDict.contains k d = false.
Proof.
  intros H. apply bool_decide_eq_false. unfold PyDict.get in H.
  rewrite H. by intros [? ?].
Qed.

Lemma get_empty k : PyDict.get k (@PyDict.empty V) = None.
Proof. apply lookup_empty. Qed.

Lemma get_setitem_eq d k v : PyDict.get k (PyDict.setitem k v d) = Some v.
Proof. apply lookup_insert_eq. Qed.

Lemma get_setitem_ne d k k' v :
  k ≠ k' → PyDict.get k' (PyDict.setitem k v d) = PyDict.get k' d.
Proof. intros. by apply lookup_insert_ne. Qed.

Lemma get_delitem_eq d k : PyDict.get k (PyDict.delitem k d) = None.
Proof. apply lookup_delete_eq. Qed.

Lemma get_delitem_ne d k k' :
  k ≠ k' → PyDict.get k' (PyDict.delitem k d) = PyDict.get k' d.
Proof. intros. by apply lookup_delete_ne. Qed.

(** Storing the value a key already has changes nothing. *)
Lemma setitem_id d k v : PyDict.get k d = Some v → PyDict.setitem k v d = d.
Proof.
  intros H. destruct d as [m o]. unfold PyDict.setitem.
  rewrite (contains_Some _ _ _ H). simpl in *.
  unfold PyDict.get in H. simpl in H. by rewrite insert_id.
Qed.

Lemma wf_empty : PyDict.wf (@PyDict.empty V).
Proof.
  split; [constructor |]. intros k. simpl. rewrite lookup_empty.
  split; [by intros ?%elem_of_nil | by intros [? ?]].
Qed.

Lemma wf_setitem d k v : PyDict.wf d → PyDict.wf (PyDict.setitem k v d).
Proof.
  intros [Hnd Hdom]. unfold PyDict.setitem, PyDict.contains.
  case_bool_decide as Hk; simpl.
  - split; [done |]. intros k'. simpl. rewrite Hdom.
    destruct (decide (k = k')) as [<- | Hne].
    + rewrite lookup_insert_eq. split; [eauto | done].
    + by rewrite lookup_insert_ne.
  - split; simpl.
    + apply NoDup_app. split; [done |]. split; [| apply NoDup_singleton].
      intros k' Hin ->%list_elem_of_singleton. by apply Hk, Hdom.
    + intros k'. rewrite elem_of_app, list_elem_of_singleton, Hdom.
      destruct (decide (k = k')) as [<- | Hne].
      * rewrite lookup_insert_eq. split; [eauto | by right].
      * rewrite lookup_insert_ne by done. split; [| by left].
        intros [? | ->]; [done | by destruct Hne].
Qed.

Lemma wf_delitem d k : PyDict.wf d → PyDict.wf (PyDict.delitem k d).
Proof.
  intros [Hnd Hdom]. split; simpl.
  - by apply NoDup_filter.
  - intros k'. rewrite list_elem_of_filter, Hdom.
    destruct (decide (k = k')) as [<- | Hne].
    + rewrite lookup_delete_eq. split; [by intros [? _] | by intros [? ?]].
    + rewrite lookup_delete_ne by done. split; [by intros [_ ?] | by split].
Qed.

End dict_facts.

(** ** UUID strings *)

Lemma append_nonempty_r (a b : string) : b ≠ "" → (a +:+ b) ≠ "".
Proof. intros Hb. destruct a; simpl; [done | discriminate]. Qed.

Lemma UUID_str_nonempty (u : UUID.t) : UUID.str u ≠ "".
Proof. unfold UUID.str. apply append_nonempty_r. discriminate. Qed.

Lemma sid_or_uuid_nonempty session_id uuid :
  InMemoryTypingStore.sid_or_uuid session_id uuid ≠ "".
Proof.
  unfold InMemoryTypingStore.sid_or_uuid.
  destruct session_id as [s |]; [case_bool_decide |]; auto using UUID_str_nonempty.
Qed.

Lemma sid_or_uuid_provided s uuid :
  s ≠ "" → InMemoryTypingStore.sid_or_uuid (Some s) uuid = s.
Proof.
  intros Hs. unfold InMemoryTypingStore.sid_or_uuid. by rewrite bool_decide_eq_false_2.
Qed.

(** ** The accumulation loop *)

Global Instance session_le_refl : Reflexive session_le.
Proof. intros a. unfold session_le. lia. Qed.

Global Instance session_le_trans : Transitive session_le.
Proof. intros a b c. unfold session_le. lia. Qed.

Section loop_facts.
Import InMemoryTypingStore.
Implicit Types (sid : string) (s : TypingSample.t)
  (samples : list TypingSample.t) (sess : _SessionData.t).

Lemma valid_sample_spec sid s :
  valid_sample sid s = true ↔
    TypingSample.session_id s = sid
    ∧ 0 ≤ TypingSample.chars_typed s ∧ 0 ≤ TypingSample.duration_ms s.
Proof.
  unfold valid_sample.
  rewrite !andb_true_iff, bool_decide_eq_true, !Z.leb_le. tauto.
Qed.

(** One turn of the loop on a valid sample and on an invalid one. *)
Lemma loop_cons_valid sid s samples sess :
  valid_sample sid s = true →
  add_samples_loop sid (s :: samples) sess
  = add_samples_loop sid samples (accumulate s sess).
Proof.
  intros (Hid & Hc & Hd)%valid_sample_spec. simpl.
  rewrite bool_decide_eq_false_2 by (intros ?; done).
  destruct (Z.ltb_spec (TypingSample.chars_typed s) 0); [lia |].
  destruct (Z.ltb_spec (TypingSample.duration_ms s) 0); [lia |]. done.
Qed.

Lemma loop_cons_invalid sid s samples sess :
  valid_sample sid s = false →
  ∃ msg, add_samples_loop sid (s :: samples) sess = (sess, Raise (ValueError msg)).
Proof.
  intros Hv. simpl. case_bool_decide as Hid; [eauto |].
  destruct (_ || _) eqn:Hneg; [eauto |].
  apply orb_false_iff in Hneg as [Hc%Z.ltb_ge Hd%Z.ltb_ge].
  assert (valid_sample sid s = true) as Hv'; [| congruence].
  apply valid_sample_spec. split; [| done].
  destruct (decide (TypingSample.session_id s = sid)); done.
Qed.

(** A batch of valid samples runs to the end and accumulates every sample. *)
Lemma loop_all_valid sid samples sess :
  forallb (valid_sample sid) samples = true →
  add_samples_loop sid samples sess
  = (foldl (λ acc s, accumulate s acc) sess samples, Ok ()).
Proof.
  revert sess. induction samples as [| s samples IH]; intros sess Hall; [done |].
  simpl in Hall. apply andb_true_iff in Hall as [Hs Hall].
  rewrite loop_cons_valid by done. by apply IH.
Qed.

(** A batch with an invalid sample stops at the first one, with the
    samples before it accumulated. *)
Lemma loop_some_invalid sid samples sess :
  forallb (valid_sample sid) samples = false →
  ∃ pre s post msg,
    samples = pre ++ s :: post
    ∧ forallb (valid_sample sid) pre = true
    ∧ valid_sample sid s = false
    ∧ add_samples_loop sid samples sess
      = (foldl (λ acc s, accumulate s acc) sess pre, Raise (ValueError msg)).
Proof.
  revert sess. induction samples as [| s samples IH]; intros sess Hex; [done |].
  destruct (valid_sample sid s) eqn:Hs.
  - simpl in Hex. rewrite Hs in Hex. simpl in Hex.
    destruct (IH (accumulate s sess) Hex) as (pre & s' & post & msg & -> & Hpre & Hs' & Hrun).
    exists (s :: pre), s', post, msg. split; [done |]. split; [by simpl; rewrite Hs |].
    split; [done |]. by rewrite loop_cons_valid.
  - destruct (loop_cons_invalid sid s samples sess Hs) as [msg Hrun].
    by exists [], s, samples, msg.
Qed.

(** What the accumulated samples add up to. *)
Lemma accumulated_total_chars samples sess :
  _SessionData.total_chars (foldl (λ acc s, accumulate s acc) sess samples)
  = _SessionData.total_chars sess + sum_of TypingSample.chars_typed samples.
Proof.
  revert sess. induction samples as [| s samples IH]; intros sess; simpl; [lia |].
  rewrite IH. simpl. fold (sum_of TypingSample.chars_typed samples). lia.
Qed.

Lemma accumulated_total_duration_ms samples sess :
  _SessionData.total_duration_ms (foldl (λ acc s, accumulate s acc) sess samples)
  = _SessionData.total_duration_ms sess + sum_of TypingSample.duration_ms samples.
Proof.
  revert sess. induction samples as [| s samples IH]; intros sess; simpl; [lia |].
  rewrite IH. simpl. fold (sum_of TypingSample.duration_ms samples). lia.
Qed.

Lemma accumulated_samples_count samples sess :
  _SessionData.samples_count (foldl (λ acc s, accumulate s acc) sess samples)
  = _SessionData.samples_count sess + Z.of_nat (length samples).
Proof.
  revert sess. induction samples as [| s samples IH]; intros sess; simpl length; simpl foldl; [lia |].
  rewrite IH. simpl. lia.
Qed.

Lemma accumulate_last_updated s sess :
  _SessionData.last_updated (accumulate s sess)
  = Z.max (_SessionData.last_updated sess)
          (datetime.replace_tzinfo_utc (TypingSample.timestamp s)).
Proof.
  unfold accumulate. simpl. rewrite datetime_max_Zmax.
  by destruct (datetime.tzinfo _).
Qed.

Lemma latest_max f a b samples :
  latest f (Z.max a b) samples = Z.max b (latest f a samples).
Proof.
  induction samples as [| s samples IH]; simpl; [lia |]. rewrite IH. lia.
Qed.

Lemma accumulated_last_updated samples sess :
  _SessionData.last_updated (foldl (λ acc s, accumulate s acc) sess samples)
  = latest (λ s, datetime.replace_tzinfo_utc (TypingSample.timestamp s))
      (_SessionData.last_updated sess) samples.
Proof.
  revert sess. induction samples as [| s samples IH]; intros sess; [done |].
  simpl foldl. rewrite IH, accumulate_last_updated, latest_max. done.
Qed.

Lemma accumulated_session_id samples sess :
  _SessionData.session_id (foldl (λ acc s, accumulate s acc) sess samples)
  = _SessionData.session_id sess.
Proof.
  revert sess. induction samples as [| s samples IH]; intros sess; [done |].
  simpl. by rewrite IH.
Qed.

Lemma sum_of_nonneg f samples :
  Forall (λ s, 0 ≤ f s) samples → 0 ≤ sum_of f samples.
Proof. induction 1; simpl; lia. Qed.

Lemma latest_ge f t0 samples : t0 ≤ latest f t0 samples.
Proof. induction samples; simpl; lia. Qed.

Lemma forallb_valid_Forall sid samples :
  forallb (valid_sample sid) samples = true →
  Forall (λ s, 0 ≤ TypingSample.chars_typed s) samples
  ∧ Forall (λ s, 0 ≤ TypingSample.duration_ms s) samples.
Proof.
  induction samples as [| s samples IH]; simpl; [by split |].
  intros [Hs Hall]%andb_true_iff. apply valid_sample_spec in Hs as (_ & ? & ?).
  destruct (IH Hall). split; by constructor.
Qed.

(** Accumulating valid samples raises every field or leaves it. *)
Lemma accumulated_le sid samples sess :
  forallb (valid_sample sid) samples = true →
  session_le sess (foldl (λ acc s, accumulate s acc) sess samples).
Proof.
  intros Hall. destruct (forallb_valid_Forall _ _ Hall) as [Hc Hd].
  unfold session_le.
  rewrite accumulated_total_chars, accumulated_total_duration_ms,
    accumulated_samples_count, accumulated_last_updated.
  pose proof (sum_of_nonneg _ _ Hc). pose proof (sum_of_nonneg _ _ Hd).
  pose proof (latest_ge (λ s, datetime.replace_tzinfo_utc (TypingSample.timestamp s))
                (_SessionData.last_updated sess) samples).
  lia.
Qed.

(** However the loop ends, it never lowers a field. *)
Lemma loop_le sid samples sess :
  session_le sess (add_samples_loop sid samples sess).1.
Proof.
  destruct (forallb (valid_sample sid) samples) eqn:Hall.
  - rewrite loop_all_valid by done. by eapply accumulated_le.
  - destruct (loop_some_invalid _ _ sess Hall) as (pre & s & post & msg & _ & Hpre & _ & ->).
    by eapply accumulated_le.
Qed.

Lemma touch_le now sess : session_le sess (touch now sess).
Proof.
  unfold session_le, touch. simpl.
  pose proof (datetime_max_ge_l (_SessionData.last_updated sess) now). lia.
Qed.

End loop_facts.

(** ** The operations on the registry *)

Section store_facts.
Import InMemoryTypingStore.
Implicit Types (st : InMemoryTypingStore.t) (sid : string)
  (samples : list TypingSample.t) (sess : _SessionData.t) (now : datetime.utc).

Lemma create_existing session_id uuid now st sess :
  PyDict.get (sid_or_uuid session_id uuid) st = Some sess →
  create_or_get_session session_id uuid now st = (st, sid_or_uuid session_id uuid).
Proof.
  intros H. unfold create_or_get_session. by rewrite (contains_Some _ _ _ H).
Qed.

Lemma create_fresh session_id uuid now st :
  PyDict.get (sid_or_uuid session_id uuid) st = None →
  create_or_get_session session_id uuid now st
  = (PyDict.setitem (sid_or_uuid session_id uuid)
       (_SessionData.__init__ (sid_or_uuid session_id uuid) now) st,
     sid_or_uuid session_id uuid).
Proof.
  intros H. unfold create_or_get_session. by rewrite (contains_None _ _ H).
Qed.

(** [add_samples] on a registered session and a non-empty batch, by the
    two ways its loop can end. *)
Lemma add_samples_all_valid sid samples now st sess :
  PyDict.get sid st = Some sess → samples ≠ [] →
  forallb (valid_sample sid) samples = true →
  add_samples sid samples now st
  = let sess' := touch now (foldl (λ acc s, accumulate s acc) sess samples) in
    (PyDict.setitem sid sess' st, _SessionData.to_summary sess').
Proof.
  intros Hget Hne Hall. unfold add_samples.
  destruct samples as [| s samples]; [done |].
  by rewrite Hget, loop_all_valid.
Qed.

Lemma add_samples_some_invalid sid samples now st sess :
  PyDict.get sid st = Some sess →
  forallb (valid_sample sid) samples = false →
  ∃ pre s post msg,
    samples = pre ++ s :: post
    ∧ forallb (valid_sample sid) pre = true
    ∧ valid_sample sid s = false
    ∧ add_samples sid samples now st
      = (PyDict.setitem sid (foldl (λ acc s, accumulate s acc) sess pre) st,
         Raise (ValueError msg)).
Proof.
  intros Hget Hex.
  destruct (loop_some_invalid sid samples sess Hex)
    as (pre & s & post & msg & Heq & Hpre & Hs & Hrun).
  exists pre, s, post, msg. repeat split; try done.
  unfold add_samples. destruct samples as [| s0 samples]; [done |].
  by rewrite Hget, Hrun.
Qed.

(** A batch with an invalid sample is always refused as a validation
    failure, whatever it did to the session before. *)
Lemma add_samples_invalid_raises sid samples now st sess :
  PyDict.get sid st = Some sess →
  forallb (valid_sample sid) samples = false →
  is_validation_failure (add_samples sid samples now st).2 = true.
Proof.
  intros Hget Hex.
  destruct (add_samples_some_invalid _ _ now _ _ Hget Hex)
    as (? & ? & ? & ? & _ & _ & _ & ->). done.
Qed.

(** When the first sample of the batch is the invalid one, nothing has
    been accumulated and the registry is as before. *)
Lemma add_samples_first_invalid sid s samples now st sess :
  PyDict.get sid st = Some sess →
  valid_sample sid s = false →
  (add_samples sid (s :: samples) now st).1 = st.
Proof.
  intros Hget Hs. unfold add_samples. rewrite Hget.
  destruct (loop_cons_invalid sid s samples sess Hs) as [msg ->].
  simpl. by apply setitem_id.
Qed.

Lemma loop_session_id sid samples sess :
  _SessionData.session_id (add_samples_loop sid samples sess).1
  = _SessionData.session_id sess.
Proof.
  destruct (forallb (valid_sample sid) samples) eqn:Hall.
  - rewrite loop_all_valid by done. apply accumulated_session_id.
  - destruct (loop_some_invalid _ _ sess Hall) as (pre & s & post & msg & _ & _ & _ & ->).
    apply accumulated_session_id.
Qed.

(** What a call of [add_samples] does to the registry: it stores, under
    the key it was called for, a session that is never below the one it
    found and carries the same id. *)
Lemma add_samples_store sid samples now st sess :
  PyDict.get sid st = Some sess →
  ∃ sess', (add_samples sid samples now st).1 = PyDict.setitem sid sess' st
           ∧ session_le sess sess'
           ∧ _SessionData.session_id sess' = _SessionData.session_id sess.
Proof.
  intros Hget. unfold add_samples.
  destruct samples as [| s samples].
  { exists sess. simpl. by rewrite setitem_id. }
  rewrite Hget. pose proof (loop_le sid (s :: samples) sess) as Hle.
  pose proof (loop_session_id sid (s :: samples) sess) as Hid.
  destruct (add_samples_loop sid (s :: samples) sess) as [sess' [[] | e]]; simpl in *.
  - exists (touch now sess'). split; [done |]. split; [| done].
    etrans; [done | apply touch_le].
  - by exists sess'.
Qed.

Lemma add_samples_unregistered sid samples now st :
  PyDict.get sid st = None → (add_samples sid samples now st).1 = st.
Proof.
  intros Hget. unfold add_samples. rewrite Hget. by destruct samples.
Qed.

Lemma add_samples_le sid samples now st sess :
  PyDict.get sid st = Some sess →
  ∃ sess', PyDict.get sid (add_samples sid samples now st).1 = Some sess'
           ∧ session_le sess sess'.
Proof.
  intros Hget.
  destruct (add_samples_store sid samples now st sess Hget) as (sess' & -> & Hle & _).
  exists sess'. by rewrite get_setitem_eq.
Qed.

Lemma add_samples_other sid sid' samples now st :
  sid ≠ sid' →
  PyDict.get sid' (add_samples sid samples now st).1 = PyDict.get sid' st.
Proof.
  intros Hne. unfold add_samples. destruct samples as [| s samples]; [done |].
  destruct (PyDict.get sid st) as [sess |] eqn:Hget; [| done].
  destruct (add_samples_loop sid (s :: samples) sess) as [sess' [[] | e]]; simpl;
    by rewrite get_setitem_ne.
Qed.

End store_facts.

(** ** Registries the program can reach *)

Lemma wf_store_init : wf_store InMemoryTypingStore.__init__.
Proof.
  split; [apply wf_empty |]. intros k d.
  unfold InMemoryTypingStore.__init__. by rewrite get_empty.
Qed.

Lemma wf_store_setitem st k d :
  wf_store st → k ≠ "" → _SessionData.session_id d = k →
  0 ≤ _SessionData.total_chars d → 0 ≤ _SessionData.total_duration_ms d →
  0 ≤ _SessionData.samples_count d →
  wf_store (PyDict.setitem k d st).
Proof.
  intros [Hwf Hall] ? ? ? ? ?. split; [by apply wf_setitem |].
  intros k' d'. destruct (decide (k = k')) as [<- | Hne].
  - rewrite get_setitem_eq. by intros [= <-].
  - rewrite get_setitem_ne by done. apply Hall.
Qed.

Lemma exec_wf c st : wf_store st → wf_store (exec c st).
Proof.
  intros Hwf. destruct c as [session_id uuid now | sid samples now | | | | sid]; simpl; try done.
  - unfold InMemoryTypingStore.create_or_get_session.
    destruct (PyDict.contains _ st); simpl; [done |].
    apply wf_store_setitem; simpl; try done. apply sid_or_uuid_nonempty.
  - destruct (PyDict.get sid st) as [sess |] eqn:Hget.
    + destruct (add_samples_store sid samples now st sess Hget)
        as (sess' & -> & (? & ? & ? & ?) & Hid').
      destruct Hwf as [Hd Hall]. destruct (Hall _ _ Hget) as (? & Hid & ? & ? & ?).
      apply wf_store_setitem; try done; [congruence | lia ..].
    + by rewrite add_samples_unregistered.
  - unfold InMemoryTypingStore.clear_session.
    destruct (PyDict.get sid st) eqn:Hget; simpl; [| done].
    destruct Hwf as [Hd Hall]. split; [by apply wf_delitem |].
    intros k d. destruct (decide (sid = k)) as [<- | Hne].
    + by rewrite get_delitem_eq.
    + rewrite get_delitem_ne by done. apply Hall.
Qed.

Lemma reachable_wf st : reachable st → wf_store st.
Proof. induction 1; [apply wf_store_init | by apply exec_wf]. Qed.

Lemma reachable_run cs st : reachable st → reachable (run cs st).
Proof.
  revert st. induction cs as [| c cs IH]; intros st Hst; [done |].
  simpl. apply IH. by constructor.
Qed.

(** No session is ever registered under the empty string. *)
Lemma reachable_no_empty_id st : reachable st → PyDict.get "" st = None.
Proof.
  intros [_ Hall]%reachable_wf. destruct (PyDict.get "" st) eqn:Hget; [| done].
  by destruct (Hall _ _ Hget) as [? _].
Qed.

(** ** Floats

    Rounding of binary64 in the normal range: a positive mantissa of at
    least 53 digits rounds to a float of exactly 53 digits, or overflows
    to an infinity. *)

Lemma digits2_pos_size (p : positive) : digits2_pos p = Pos.size p.
Proof. induction p as [p IH | p IH |]; simpl; congruence. Qed.

Lemma Zdigits2_log2 (m : Z) : 0 < m → Zdigits2 m = Z.log2 m + 1.
Proof.
  destruct m as [| p | p]; try lia. intros _. simpl.
  rewrite digits2_pos_size. destruct p; simpl; lia.
Qed.

Lemma shr_1_m (r : shr_record) :
  0 ≤ shr_m r → shr_m (shr_1 r) = Z.shiftr (shr_m r) 1.
Proof.
  destruct r as [m b s]. simpl. intros Hm. rewrite <- Z.div2_spec.
  destruct m as [| [p | p |] | p]; try reflexivity; lia.
Qed.

Lemma iter_pos_shr_1_m (p : positive) (r : shr_record) :
  0 ≤ shr_m r → shr_m (SpecFloat.iter_pos shr_1 p r) = Z.shiftr (shr_m r) (Zpos p).
Proof.
  revert r. induction p as [p IH | p IH |]; intros r Hr; simpl SpecFloat.iter_pos.
  - assert (0 ≤ shr_m (shr_1 r)) by (rewrite shr_1_m by lia; apply Z.shiftr_nonneg; lia).
    assert (0 ≤ shr_m (SpecFloat.iter_pos shr_1 p (shr_1 r))) by (rewrite IH by lia; apply Z.shiftr_nonneg; lia).
    rewrite !IH, shr_1_m by lia. rewrite !Z.shiftr_shiftr by lia. f_equal. lia.
  - assert (0 ≤ shr_m (SpecFloat.iter_pos shr_1 p r)) by (rewrite IH by lia; apply Z.shiftr_nonneg; lia).
    rewrite !IH by lia. rewrite Z.shiftr_shiftr by lia. f_equal. lia.
  - apply shr_1_m, Hr.
Qed.

Lemma shr_record_of_loc_m m l : shr_m (shr_record_of_loc m l) = m.
Proof. destruct l as [| []]; reflexivity. Qed.

Lemma fexp_normal e : -1021 ≤ e → fexp 53 1024 e = e - 53.
Proof. unfold fexp, emin. lia. Qed.

Lemma shr_fexp_normal m e l :
  0 < m → 53 ≤ Zdigits2 m → -1021 ≤ Zdigits2 m + e →
  ∃ mrs, shr_fexp 53 1024 m e l = (mrs, Zdigits2 m + e - 53)
    ∧ 0 < shr_m mrs ∧ Zdigits2 (shr_m mrs) = 53.
Proof.
  intros Hm Hd HE. unfold shr_fexp. rewrite fexp_normal by lia.
  replace (Zdigits2 m + e - 53 - e) with (Zdigits2 m - 53) by lia.
  unfold shr. destruct (Zdigits2 m - 53) as [| p | p] eqn:Hn; try lia.
  - exists (shr_record_of_loc m l). rewrite shr_record_of_loc_m.
    repeat split; try lia. f_equal. lia.
  - exists (SpecFloat.iter_pos shr_1 p (shr_record_of_loc m l)).
    rewrite iter_pos_shr_1_m by (rewrite shr_record_of_loc_m; lia).
    rewrite shr_record_of_loc_m.
    assert (Z.log2 (Z.shiftr m (Z.pos p)) = 52) as Hlog.
    { rewrite Z.log2_shiftr by lia. rewrite Zdigits2_log2 in Hn, Hd by lia. lia. }
    assert (0 < Z.shiftr m (Z.pos p)) as Hpos.
    { destruct (Z.shiftr_nonneg m (Z.pos p)) as [_ H]. specialize (H ltac:(lia)).
      assert (Z.shiftr m (Z.pos p) ≠ 0); [| lia].
      intros H0. rewrite H0 in Hlog. simpl in Hlog. lia. }
    repeat split; try lia.
    + f_equal. lia.
    + rewrite Zdigits2_log2 by lia. lia.
Qed.

Lemma round_nearest_even_bounds m l :
  m ≤ round_nearest_even m l ≤ m + 1.
Proof. destruct l as [| []]; simpl; try lia. destruct (Z.even m); lia. Qed.

Lemma binary_round_aux_normal sx mx ex lx :
  0 < mx → 53 ≤ Zdigits2 mx → -1021 ≤ Zdigits2 mx + ex →
  (∃ m e, binary_round_aux 53 1024 sx mx ex lx = S754_finite sx m e
     ∧ Zdigits2 (Zpos m) = 53
     ∧ Zdigits2 mx + ex ≤ 53 + e ≤ Zdigits2 mx + ex + 1 ∧ e ≤ 971)
  ∨ (binary_round_aux 53 1024 sx mx ex lx = S754_infinity sx
      ∧ 1024 ≤ Zdigits2 mx + ex).
Proof.
  intros Hm Hd HE. unfold binary_round_aux.
  destruct (shr_fexp_normal mx ex lx Hm Hd HE) as (mrs & -> & Hpos & Hdig).
  pose proof (round_nearest_even_bounds (shr_m mrs) (loc_of_shr_record mrs)) as Hr.
  set (m2 := round_nearest_even (shr_m mrs) (loc_of_shr_record mrs)) in *.
  assert (53 ≤ Zdigits2 m2 ≤ 54) as Hd2.
  { rewrite Zdigits2_log2 in * by lia.
    pose proof (Z.log2_le_mono (shr_m mrs) m2 ltac:(lia)).
    pose proof (Z.log2_le_mono m2 (Z.succ (shr_m mrs)) ltac:(lia)).
    pose proof (Z.log2_succ_le (shr_m mrs)). lia. }
  destruct (shr_fexp_normal m2 (Zdigits2 mx + ex - 53) loc_Exact) as (mrs2 & -> & Hpos2 & Hdig2);
    try lia.
  destruct (shr_m mrs2) as [| m | m] eqn:Hm2; try lia.
  destruct (Z.leb_spec (Zdigits2 m2 + (Zdigits2 mx + ex - 53) - 53) (1024 - 53)).
  - left. eexists _, _. split; [reflexivity |]. lia.
  - right. split; [reflexivity |]. lia.
Qed.

Lemma pos_iter_xO (m d : positive) : Zpos (Pos.iter xO m d) = Zpos m * 2 ^ Zpos d.
Proof.
  induction d as [| d IH] using Pos.peano_ind.
  - simpl. lia.
  - rewrite Pos.iter_succ, Pos2Z.inj_xO, IH, Pos2Z.inj_succ, Z.pow_succ_r by lia. lia.
Qed.

Lemma Zdigits2_bounds (m : Z) :
  0 < m → 2 ^ (Zdigits2 m - 1) ≤ m < 2 ^ Zdigits2 m.
Proof.
  intros Hm. rewrite Zdigits2_log2 by lia.
  replace (Z.log2 m + 1 - 1) with (Z.log2 m) by lia. apply Z.log2_spec, Hm.
Qed.

Lemma Zdigits2_unique (m d : Z) :
  0 < d → 2 ^ (d - 1) ≤ m < 2 ^ d → Zdigits2 m = d.
Proof.
  intros Hd Hm. assert (0 < m) by (pose proof (Z.pow_pos_nonneg 2 (d - 1)); lia).
  rewrite Zdigits2_log2 by lia.
  rewrite (Z.log2_unique m (d - 1)); [lia | lia |].
  replace (Z.succ (d - 1)) with d by lia. exact Hm.
Qed.

(** A positive [int] converts to a positive float of 53 digits, or, from
    2^1023 on, may round out of range. *)
Lemma binary_normalize_pos (n : Z) :
  0 < n →
  (∃ m e, binary_normalize 53 1024 n 0 false = S754_finite false m e
     ∧ Zdigits2 (Zpos m) = 53 ∧ -52 ≤ e ≤ 971)
  ∨ (binary_normalize 53 1024 n 0 false = S754_infinity false ∧ 2 ^ 1023 ≤ n).
Proof.
  intros Hpos. destruct n as [| p | p]; try lia. simpl binary_normalize.
  unfold binary_round.
  assert (1 ≤ Zdigits2 (Zpos p)) as Hd.
  { rewrite Zdigits2_log2 by lia. pose proof (Z.log2_nonneg (Zpos p)). lia. }
  assert (1024 ≤ Zdigits2 (Zpos p) → 2 ^ 1023 ≤ Zpos p) as Hbig.
  { intros Hd'. rewrite Zdigits2_log2 in Hd' by lia. apply Z.log2_le_pow2; lia. }
  change (Z.pos (digits2_pos p)) with (Zdigits2 (Zpos p)).
  rewrite Z.add_0_r, fexp_normal by lia.
  unfold shl_align. rewrite Z.sub_0_r.
  destruct (Zdigits2 (Z.pos p) - 53) as [| k | k] eqn:Hk.
  - destruct (binary_round_aux_normal false (Zpos p) 0 loc_Exact) as
      [(m & e & -> & ? & ? & ?) | [-> ?]]; try lia.
    left. exists m, e. split; [reflexivity |]. lia.
  - destruct (binary_round_aux_normal false (Zpos p) 0 loc_Exact) as
      [(m & e & -> & ? & ? & ?) | [-> ?]]; try lia.
    + left. exists m, e. split; [reflexivity |]. lia.
    + right. split; [reflexivity |]. apply Hbig. lia.
  - assert (Zdigits2 (Zpos (Pos.iter xO p k)) = 53) as Hd'.
    { apply Zdigits2_unique; [lia |]. rewrite pos_iter_xO.
      pose proof (Zdigits2_bounds (Zpos p) ltac:(lia)) as [Hlo Hhi].
      replace 53 with (Zdigits2 (Zpos p) + Zpos k) at 2 by lia.
      replace (53 - 1) with (Zdigits2 (Zpos p) - 1 + Zpos k) by lia.
      rewrite !Z.pow_add_r by lia.
      pose proof (Z.pow_pos_nonneg 2 (Zpos k)). nia. }
    destruct (binary_round_aux_normal false (Zpos (Pos.iter xO p k))
                (Z.neg k) loc_Exact) as
      [(m & e & -> & ? & ? & ?) | [_ ?]]; try lia.
    left. exists m, e. split; [reflexivity |]. lia.
Qed.

Lemma SFdiv_normal sx m1 e1 sy m2 e2 :
  Zdigits2 (Zpos m1) = 53 → Zdigits2 (Zpos m2) = 53 → -1021 ≤ e1 - e2 →
  (∃ m e, SFdiv 53 1024 (S754_finite sx m1 e1) (S754_finite sy m2 e2)
               = S754_finite (xorb sx sy) m e
     ∧ Zdigits2 (Zpos m) = 53 ∧ e1 - e2 - 53 ≤ e ≤ e1 - e2 - 51 ∧ e ≤ 971)
  ∨ (SFdiv 53 1024 (S754_finite sx m1 e1) (S754_finite sy m2 e2)
      = S754_infinity (xorb sx sy) ∧ 1023 ≤ e1 - e2).
Proof.
  intros Hd1 Hd2 He. unfold SFdiv, SFdiv_core_binary.
  rewrite Hd1, Hd2.
  replace (53 + e1 - (53 + e2)) with (e1 - e2) by lia.
  rewrite fexp_normal by lia.
  rewrite Z.min_l by lia.
  replace (e1 - e2 - (e1 - e2 - 53)) with 53 by lia.
  pose proof (Zdigits2_bounds (Zpos m1) ltac:(lia)) as B1.
  pose proof (Zdigits2_bounds (Zpos m2) ltac:(lia)) as B2.
  rewrite Hd1 in B1. rewrite Hd2 in B2.
  pose proof (Z_div_mod (Z.shiftl (Zpos m1) 53) (Zpos m2) ltac:(lia)) as Hdiv.
  destruct (Z.div_eucl (Z.shiftl (Z.pos m1) 53) (Z.pos m2)) as [q r].
  rewrite Z.shiftl_mul_pow2 in Hdiv by lia. destruct Hdiv as [Heq Hr].
  assert (2 ^ 52 ≤ q < 2 ^ 54) as Hq.
  { change (53 - 1) with 52 in *. split; nia. }
  assert (53 ≤ Zdigits2 q ≤ 54) as Hdq.
  { rewrite Zdigits2_log2 by lia.
    assert (52 ≤ Z.log2 q) by (apply Z.log2_le_pow2; lia).
    assert (Z.log2 q < 54) by (apply Z.log2_lt_pow2; lia). lia. }
  destruct (binary_round_aux_normal (xorb sx sy) q (e1 - e2 - 53) (new_location (Zpos m2) r))
    as [(m & e & -> & ? & ? & ?) | [-> ?]]; try lia.
  - left. exists m, e. split; [reflexivity |]. lia.
  - right. split; [reflexivity |]. lia.
Qed.


Lemma SFcompare_refl (x : PyFloat.float) :
  PyFloat.is_nan x = false → SFcompare x x = Some Eq.
Proof.
  destruct x as [[] | [] | | [] m e]; simpl; try done; intros _;
    by rewrite Z.compare_refl, Pos.compare_cont_refl.
Qed.

Lemma PyFloat_eqb_refl (x : PyFloat.float) :
  PyFloat.is_nan x = false → PyFloat.eqb x x = true.
Proof. intros H. unfold PyFloat.eqb, SFeqb. by rewrite SFcompare_refl. Qed.

(** [n / k] for a positive [int] and a literal [k] with a 53-digit
    mantissa and an exponent in [-51, 0]: unless the conversion of [n]
    raises [OverflowError], which takes [n] of 2^1023 or more, the
    quotient is a positive finite float; the division neither overflows
    nor underflows. *)
Lemma int_truediv_pos n k mk ek :
  0 < n →
  k = S754_finite false mk ek → Zdigits2 (Zpos mk) = 53 → -51 ≤ ek ≤ 0 →
  (∃ m e, PyFloat.int_truediv n k = Ok (S754_finite false m e)
     ∧ Zdigits2 (Zpos m) = 53 ∧ -105 - ek ≤ e ≤ 920 - ek)
  ∨ (∃ msg, PyFloat.int_truediv n k = Raise (OverflowError msg) ∧ 2 ^ 1023 ≤ n).
Proof.
  intros Hn -> Hdk Hek. unfold PyFloat.int_truediv, PyFloat.of_int.
  destruct (binary_normalize_pos n Hn) as
    [(m1 & e1 & Hconv & Hd1 & He1) | [Hconv Hbig]];
    fold PyFloat.prec PyFloat.emax in Hconv; rewrite Hconv.
  - rewrite bind_Ok.
    destruct (SFdiv_normal false m1 e1 false mk ek) as
      [(m & e & Hdiv & ? & ? & ?) | [_ ?]]; try lia.
    fold PyFloat.prec PyFloat.emax in Hdiv.
    unfold PyFloat.truediv. cbn [PyFloat.is_zero]. rewrite Hdiv.
    left. exists m, e. split; [reflexivity |]. lia.
  - right. by eexists.
Qed.

(** The outcomes of [_compute_wpm] on a non-negative [total_chars]: a
    float that is a number and not negative, or the [OverflowError] of
    converting a total of 2^1023 or more. It never raises
    [ZeroDivisionError]. *)
Lemma compute_wpm_outcome total_chars total_duration_ms :
  0 ≤ total_chars →
  (∃ w, _compute_wpm total_chars total_duration_ms = Ok w
        ∧ PyFloat.is_nan w = false ∧ PyFloat.leb PyFloat.zero w = true)
  ∨ (∃ msg, _compute_wpm total_chars total_duration_ms = Raise (OverflowError msg)
            ∧ (2 ^ 1023 ≤ total_chars ∨ 2 ^ 1023 ≤ total_duration_ms)).
Proof.
  intros Hc. unfold _compute_wpm.
  destruct (Z.leb_spec total_duration_ms 0) as [Hle | Hpos].
  { left. by exists PyFloat.zero. }
  destruct (int_truediv_pos total_duration_ms (PyFloat.lit 60000)
              8246337208320000 (-37)) as
    [(mm & em & Hmin & Hdm & Hem) | (msg & Hmin & Hbig)];
    [lia | by vm_compute | by vm_compute | lia | |].
  - destruct (decide (total_chars = 0)) as [-> | Hne].
    { left. rewrite Hmin. by eexists. }
    destruct (int_truediv_pos total_chars (PyFloat.lit 5)
                5629499534213120 (-50)) as
      [(mw & ew & Hwords & Hdw & Hew) | (msg & Hwords & Hbig)];
      [lia | by vm_compute | by vm_compute | lia | |].
    + left. rewrite Hwords, bind_Ok, Hmin, bind_Ok.
      unfold PyFloat.truediv. cbn [PyFloat.is_zero].
      destruct (SFdiv_normal false mw ew false mm em) as
        [(m & e & Hdiv & _) | [Hdiv _]]; try lia;
        fold PyFloat.prec PyFloat.emax in Hdiv; rewrite Hdiv; by eexists.
    + right. rewrite Hwords. exists msg. split; [done | by left].
  - right. rewrite Hmin.
    destruct (PyFloat.int_truediv total_chars (PyFloat.lit 5)) as [w | e] eqn:Hwords.
    + rewrite bind_Ok. exists msg. split; [done | by right].
    + destruct (decide (total_chars = 0)) as [-> | Hne]; [by vm_compute in Hwords |].
      destruct (int_truediv_pos total_chars (PyFloat.lit 5)
                  5629499534213120 (-50)) as
        [(mw & ew & Hwords' & _) | (msg' & Hwords' & Hbig')];
        [lia | by vm_compute | by vm_compute | lia | |]; [congruence |].
      assert (e = OverflowError msg') as -> by congruence.
      exists msg'. split; [done | by left].
Qed.

(** [_compute_wpm] returns for all non-negative totals below 2^1023. *)
Lemma compute_wpm_returns total_chars total_duration_ms :
  0 ≤ total_chars < 2 ^ 1023 → total_duration_ms < 2 ^ 1023 →
  ∃ w, _compute_wpm total_chars total_duration_ms = Ok w
       ∧ PyFloat.is_nan w = false ∧ PyFloat.leb PyFloat.zero w = true.
Proof.
  intros Hc Hd.
  destruct (compute_wpm_outcome total_chars total_duration_ms) as
    [Hok | (msg & _ & [? | ?])]; [lia | done | lia | lia].
Qed.

(** ** Summaries *)

Lemma to_summary_Ok sess summary :
  _SessionData.to_summary sess = Ok summary →
  SessionSummary.session_id summary = _SessionData.session_id sess
  ∧ SessionSummary.total_chars summary = _SessionData.total_chars sess
  ∧ SessionSummary.total_duration_ms summary = _SessionData.total_duration_ms sess
  ∧ SessionSummary.samples_count summary = _SessionData.samples_count sess
  ∧ SessionSummary.last_updated summary = _SessionData.last_updated sess
  ∧ _compute_wpm (_SessionData.total_chars sess) (_SessionData.total_duration_ms sess)
    = Ok (SessionSummary.avg_wpm summary).
Proof.
  unfold _SessionData.to_summary, SessionSummary.__init__.
  destruct (_compute_wpm _ _) as [w | e]; [rewrite bind_Ok | done].
  destruct (SessionSummary.constraints _); [| done]. by intros [= <-].
Qed.

(** On a session whose counters are not negative the field constraints
    of the summary never fail: [to_summary] builds the summary whenever
    the WPM is computed. *)
Lemma to_summary_checked sess :
  0 ≤ _SessionData.total_chars sess →
  0 ≤ _SessionData.total_duration_ms sess →
  0 ≤ _SessionData.samples_count sess →
  _SessionData.to_summary sess
  = (λ w, SessionSummary.mk (_SessionData.session_id sess)
            (_SessionData.total_chars sess) (_SessionData.total_duration_ms sess)
            w (_SessionData.samples_count sess) (_SessionData.last_updated sess))
    <$> _compute_wpm (_SessionData.total_chars sess) (_SessionData.total_duration_ms sess).
Proof.
  intros Hc Hd Hn. unfold _SessionData.to_summary, SessionSummary.__init__.
  destruct (compute_wpm_outcome (_SessionData.total_chars sess)
              (_SessionData.total_duration_ms sess) Hc) as
    [(w & -> & _ & Hw) | (msg & -> & _)]; [| done].
  rewrite bind_Ok, fmap_Ok. unfold SessionSummary.constraints. cbn [SessionSummary.total_chars
    SessionSummary.total_duration_ms SessionSummary.avg_wpm SessionSummary.samples_count].
  by rewrite Hw, (proj2 (Z.leb_le 0 _) Hc), (proj2 (Z.leb_le 0 _) Hd),
    (proj2 (Z.leb_le 0 _) Hn).
Qed.

Lemma to_summary_returns sess :
  0 ≤ _SessionData.total_chars sess < 2 ^ 1023 →
  0 ≤ _SessionData.total_duration_ms sess < 2 ^ 1023 →
  0 ≤ _SessionData.samples_count sess →
  ∃ summary, _SessionData.to_summary sess = Ok summary
             ∧ SessionSummary.constraints summary = true.
Proof.
  intros Hc Hd Hn. rewrite to_summary_checked by lia.
  destruct (compute_wpm_returns (_SessionData.total_chars sess)
              (_SessionData.total_duration_ms sess)) as (w & -> & _ & Hw); [lia .. |].
  eexists. split; [reflexivity |]. unfold SessionSummary.constraints. simpl.
  by rewrite Hw, (proj2 (Z.leb_le 0 _) (proj1 Hc)), (proj2 (Z.leb_le 0 _) (proj1 Hd)),
    (proj2 (Z.leb_le 0 _) Hn).
Qed.

(** ** The running example *)

Section example_facts.
Import InMemoryTypingStore Scenario.

Lemma store_s1_reachable : reachable store_s1.
Proof. apply reachable_exec, reachable_init. Qed.

Lemma store_s1_50_reachable : reachable store_s1_50.
Proof. apply reachable_exec, store_s1_reachable. Qed.

Lemma store_s1_get :
  PyDict.get "s1" store_s1 = Some (_SessionData.mk "s1" 0 0 0 t0).
Proof. vm_compute. reflexivity. Qed.

Lemma store_s1_50_get :
  PyDict.get "s1" store_s1_50 = Some (_SessionData.mk "s1" 50 60000 1 (t0 + 2)).
Proof. vm_compute. reflexivity. Qed.

(** The scenarios of the specification. *)
Lemma stats_after_first_batch :
  get_session_stats "s1" store_s1_50
  = Ok (SpeedStat.mk "s1" (PyFloat.lit 10) None (t0 + 2)).
Proof. vm_compute. reflexivity. Qed.

Lemma summary_after_second_batch :
  (add_samples "s1" one_minute_50 (t0 + 3) store_s1_50).2
  = Ok (SessionSummary.mk "s1" 100 120000 (PyFloat.lit 10) 2 (t0 + 3)).
Proof. vm_compute. reflexivity. Qed.

Lemma summary_of_unknown_session :
  get_session_summary "nonexistent" store_s1_50 = Raise (KeyError "session not found").
Proof. vm_compute. reflexivity. Qed.

Lemma list_after_first_batch :
  list_sessions store_s1_50
  = Ok [SessionSummary.mk "s1" 50 60000 (PyFloat.lit 10) 1 (t0 + 2)].
Proof. vm_compute. reflexivity. Qed.

End example_facts.

(** * The claims *)

Section claims.
Import InMemoryTypingStore Scenario.

(** ** Appending a batch *)

(** C1, on the code: the batch [mixed_batch] for the registered session
    "s1" holds a valid sample followed by one naming the session "s2".
    [add_samples] refuses it with a validation failure, but only after it
    has accumulated the first sample: the session's totals and count have
    changed from 0, 0, 0 to 5, 1000, 1. *)
Theorem add_samples_applies_prefix_of_refused_batch :
  PyDict.get "s1" store_s1 = Some (_SessionData.mk "s1" 0 0 0 t0)
  ∧ forallb (valid_sample "s1") mixed_batch = false
  ∧ (add_samples "s1" mixed_batch (t0 + 2) store_s1).2
    = Raise (ValueError "sample.session_id does not match request session_id")
  ∧ PyDict.get "s1" (add_samples "s1" mixed_batch (t0 + 2) store_s1).1
    = Some (_SessionData.mk "s1" 5 1000 1 (t0 + 1))
  ∧ ¬ refused_unchanged "s1" mixed_batch (t0 + 2) store_s1.
Proof.
  assert (PyDict.get "s1" (add_samples "s1" mixed_batch (t0 + 2) store_s1).1
          = Some (_SessionData.mk "s1" 5 1000 1 (t0 + 1))) as Hafter
    by (vm_compute; reflexivity).
  split; [exact store_s1_get |].
  split; [vm_compute; reflexivity |].
  split; [vm_compute; reflexivity |].
  split; [exact Hafter |].
  intros Hclaim. destruct (Hclaim _ store_s1_get) as [_ Hsame].
  rewrite Hafter in Hsame. discriminate Hsame.
Qed.

(** C3: for a registered session and a non-empty batch of valid samples,
    [add_samples] leaves the session with [total_chars] raised by the sum
    of [chars_typed], [total_duration_ms] raised by the sum of
    [duration_ms] and [samples_count] raised by the length of the batch,
    and its outcome is [to_summary] of that updated session: a returned
    summary carries the updated totals and the WPM computed from them, and
    in a reachable registry a summary is returned whenever the updated
    totals are below 2^1023. *)
Theorem add_samples_adds_batch sid samples now st sess :
  PyDict.get sid st = Some sess →
  samples ≠ [] →
  forallb (valid_sample sid) samples = true →
  ∃ sess',
    PyDict.get sid (add_samples sid samples now st).1 = Some sess'
    ∧ _SessionData.total_chars sess'
      = _SessionData.total_chars sess + sum_of TypingSample.chars_typed samples
    ∧ _SessionData.total_duration_ms sess'
      = _SessionData.total_duration_ms sess + sum_of TypingSample.duration_ms samples
    ∧ _SessionData.samples_count sess'
      = _SessionData.samples_count sess + Z.of_nat (length samples)
    ∧ (add_samples sid samples now st).2 = _SessionData.to_summary sess'
    ∧ (∀ summary, (add_samples sid samples now st).2 = Ok summary →
        SessionSummary.total_chars summary = _SessionData.total_chars sess'
        ∧ SessionSummary.total_duration_ms summary = _SessionData.total_duration_ms sess'
        ∧ SessionSummary.samples_count summary = _SessionData.samples_count sess'
        ∧ _compute_wpm (_SessionData.total_chars sess') (_SessionData.total_duration_ms sess')
          = Ok (SessionSummary.avg_wpm summary))
    ∧ (reachable st →
       _SessionData.total_chars sess' < 2 ^ 1023 →
       _SessionData.total_duration_ms sess' < 2 ^ 1023 →
       ∃ summary, (add_samples sid samples now st).2 = Ok summary).
Proof.
  intros Hget Hne Hall.
  rewrite (add_samples_all_valid sid samples now st sess) by done. cbv zeta.
  set (sess' := touch now _).
  assert (_SessionData.total_chars sess'
          = _SessionData.total_chars sess + sum_of TypingSample.chars_typed samples) as Hc
    by apply accumulated_total_chars.
  assert (_SessionData.total_duration_ms sess'
          = _SessionData.total_duration_ms sess + sum_of TypingSample.duration_ms samples) as Hd
    by apply accumulated_total_duration_ms.
  assert (_SessionData.samples_count sess'
          = _SessionData.samples_count sess + Z.of_nat (length samples)) as Hn
    by apply accumulated_samples_count.
  exists sess'. cbn [fst snd]. rewrite get_setitem_eq.
  repeat (split; [done |]). split.
  - intros summary Hsum. by apply to_summary_Ok in Hsum as (_ & ? & ? & ? & _ & ?).
  - intros [_ Hwf]%reachable_wf Hc' Hd'.
    destruct (Hwf _ _ Hget) as (_ & _ & ? & ? & ?).
    destruct (forallb_valid_Forall _ _ Hall) as [Hcs Hds].
    pose proof (sum_of_nonneg _ _ Hcs). pose proof (sum_of_nonneg _ _ Hds).
    destruct (to_summary_returns sess') as (summary & ? & _); [lia .. |].
    by exists summary.
Qed.

Lemma add_samples_adds_batch_witness :
  PyDict.get "s1" store_s1 = Some (_SessionData.mk "s1" 0 0 0 t0)
  ∧ one_minute_50 ≠ []
  ∧ forallb (valid_sample "s1") one_minute_50 = true
  ∧ ∃ sess',
      PyDict.get "s1" (add_samples "s1" one_minute_50 (t0 + 2) store_s1).1 = Some sess'
      ∧ _SessionData.total_chars sess' = 0 + sum_of TypingSample.chars_typed one_minute_50.
Proof.
  split; [vm_compute; reflexivity |].
  split; [discriminate |].
  split; [vm_compute; reflexivity |].
  destruct (add_samples_adds_batch "s1" one_minute_50 (t0 + 2) store_s1
              (_SessionData.mk "s1" 0 0 0 t0))
    as (sess' & Hget & Hchars & _).
  - vm_compute; reflexivity.
  - discriminate.
  - vm_compute; reflexivity.
  - exists sess'. split; [exact Hget | exact Hchars].
Defined.

(** C8: for a session id that is not registered and a non-empty batch,
    [add_samples] raises [KeyError] (the not-found outcome) and leaves the
    registry as it was: no session is created. *)
Theorem add_samples_unknown_session sid samples now st :
  PyDict.get sid st = None →
  samples ≠ [] →
  add_samples sid samples now st = (st, Raise (KeyError "session not found"))
  ∧ is_not_found (add_samples sid samples now st).2 = true
  ∧ PyDict.get sid (add_samples sid samples now st).1 = None.
Proof.
  intros Hget Hne. unfold add_samples.
  destruct samples as [| s samples]; [done |]. by rewrite Hget.
Qed.

Lemma add_samples_unknown_session_witness :
  PyDict.get "s2" store_s1 = None
  ∧ one_minute_50 ≠ []
  ∧ add_samples "s2" one_minute_50 (t0 + 2) store_s1
    = (store_s1, Raise (KeyError "session not found")).
Proof.
  split; [vm_compute; reflexivity |].
  split; [discriminate |].
  apply (add_samples_unknown_session "s2" one_minute_50 (t0 + 2) store_s1);
    [vm_compute; reflexivity | discriminate].
Defined.

(** C10: for every session id, registered or not, [add_samples] with an
    empty batch raises the [ValueError] of the emptiness check, never the
    [KeyError] of the lookup, and leaves the registry as it was. *)
Theorem add_samples_empty_batch sid now st :
  add_samples sid [] now st = (st, Raise (ValueError "samples must be non-empty"))
  ∧ is_validation_failure (add_samples sid [] now st).2 = true
  ∧ is_not_found (add_samples sid [] now st).2 = false.
Proof. done. Qed.

(** What the code stores in [last_updated] on a successful append: the
    latest of the value before the call, the calendar fields of the
    submitted timestamps relabelled as UTC, and the time of the call. *)
Lemma add_samples_last_updated sid samples now st sess :
  PyDict.get sid st = Some sess →
  samples ≠ [] →
  forallb (valid_sample sid) samples = true →
  ∃ sess',
    PyDict.get sid (add_samples sid samples now st).1 = Some sess'
    ∧ _SessionData.last_updated sess'
      = Z.max (latest (λ s, datetime.replace_tzinfo_utc (TypingSample.timestamp s))
                 (_SessionData.last_updated sess) samples) now.
Proof.
  intros Hget Hne Hall.
  rewrite (add_samples_all_valid sid samples now st sess) by done. cbv zeta.
  eexists. simpl. rewrite get_setitem_eq. split; [done |]. simpl.
  by rewrite datetime_max_Zmax, accumulated_last_updated.
Qed.

Lemma in_utc_replace (d : datetime.t) :
  in_utc d = true → datetime.replace_tzinfo_utc d = datetime.astimezone_utc d.
Proof.
  unfold in_utc, datetime.replace_tzinfo_utc, datetime.astimezone_utc.
  destruct (datetime.tzinfo d) as [off |]; [| done]. intros ->%Z.eqb_eq. lia.
Qed.

Lemma latest_ext f g t samples :
  Forall (λ s, f s = g s) samples → latest f t samples = latest g t samples.
Proof. induction 1 as [| s samples Hs _ IH]; simpl; [done |]. by rewrite Hs, IH. Qed.

(** On timestamps that are naive or at offset zero the stored value is
    the three-way maximum of the specification. *)
Lemma add_samples_last_updated_in_utc sid samples now st sess :
  PyDict.get sid st = Some sess →
  samples ≠ [] →
  forallb (valid_sample sid) samples = true →
  Forall (λ s, in_utc (TypingSample.timestamp s) = true) samples →
  ∃ sess',
    PyDict.get sid (add_samples sid samples now st).1 = Some sess'
    ∧ _SessionData.last_updated sess'
      = last_updated_spec (_SessionData.last_updated sess) samples now.
Proof.
  intros Hget Hne Hall Hutc.
  destruct (add_samples_last_updated sid samples now st sess) as (sess' & ? & Heq); try done.
  exists sess'. split; [done |]. rewrite Heq. unfold last_updated_spec. f_equal.
  apply latest_ext. eapply Forall_impl; [done |]. intros s. apply in_utc_replace.
Qed.

(** C9, on the code: the batch [ahead_of_utc] holds one valid sample
    stamped 23:13:20 at offset +05:00, the instant 18:13:20 UTC, and is
    appended at 22:13:20 UTC to a session last updated at that same time.
    The three-way maximum of the specification is the time of the call;
    the code stores 23:13:20 UTC, an hour after the call, because it
    relabels the timestamp as UTC instead of converting it. *)
Theorem add_samples_relabels_aware_timestamp :
  PyDict.get "s1" store_s1 = Some (_SessionData.mk "s1" 0 0 0 t0)
  ∧ forallb (valid_sample "s1") ahead_of_utc = true
  ∧ PyDict.get "s1" (add_samples "s1" ahead_of_utc t0 store_s1).1
    = Some (_SessionData.mk "s1" 5 1000 1 (t0 + hour))
  ∧ last_updated_spec t0 ahead_of_utc t0 = t0
  ∧ t0 + hour ≠ last_updated_spec t0 ahead_of_utc t0.
Proof.
  split; [exact store_s1_get |].
  split; [vm_compute; reflexivity |].
  split; [vm_compute; reflexivity |].
  split; [vm_compute; reflexivity |].
  vm_compute. discriminate.
Qed.

(** ** Monotone aggregates *)

Lemma exec_session_le c st sid d :
  PyDict.get sid st = Some d →
  clears sid c = false →
  ∃ d', PyDict.get sid (exec c st) = Some d' ∧ session_le d d'.
Proof.
  intros Hget Hc.
  destruct c as [session_id uuid now | sid' samples now | | | | sid']; simpl;
    try (by exists d).
  - unfold create_or_get_session.
    destruct (PyDict.contains _ st) eqn:Hin; simpl; [by exists d |].
    exists d. split; [| done]. rewrite get_setitem_ne; [done |].
    intros Heq. rewrite Heq, (contains_Some _ _ _ Hget) in Hin. done.
  - destruct (decide (sid' = sid)) as [-> | Hne].
    + by apply add_samples_le.
    + exists d. by rewrite add_samples_other.
  - simpl in Hc. apply bool_decide_eq_false in Hc.
    unfold clear_session. destruct (PyDict.get sid' st); simpl; [| by exists d].
    exists d. by rewrite get_delitem_ne.
Qed.

(** Deleting a session removes it: reads of its id fail as not found,
    and creating it again under the same id starts from zero. *)
Lemma clear_session_forgets sid st d :
  PyDict.get sid st = Some d →
  clear_session sid st = (PyDict.delitem sid st, Ok ())
  ∧ get_session_summary sid (exec (ClearSession sid) st) = Raise (KeyError "session not found")
  ∧ get_session_stats sid (exec (ClearSession sid) st) = Raise (KeyError "session not found").
Proof.
  intros Hget. unfold exec, clear_session, get_session_summary, get_session_stats.
  rewrite Hget. cbn [fst]. by rewrite get_delitem_eq.
Qed.

Lemma clear_then_create_resets sid uuid now st d :
  sid ≠ "" →
  PyDict.get sid st = Some d →
  PyDict.get sid (run [ClearSession sid; CreateOrGetSession (Some sid) uuid now] st)
  = Some (_SessionData.mk sid 0 0 0 now).
Proof.
  intros Hsid Hget. unfold run. cbn [foldl exec].
  destruct (clear_session_forgets sid st d Hget) as [-> _]. cbn [fst].
  rewrite (create_fresh (Some sid) uuid now); rewrite sid_or_uuid_provided by done.
  - cbn [fst]. by rewrite get_setitem_eq.
  - apply get_delitem_eq.
Qed.

(** C2: from any state in which the session is registered, through any
    sequence of store operations that does not delete it, the session is
    still registered and none of [total_chars], [total_duration_ms],
    [samples_count] and [last_updated] is lower than before. *)
Theorem session_fields_never_decrease cs st sid d :
  PyDict.get sid st = Some d →
  forallb (λ c, negb (clears sid c)) cs = true →
  ∃ d', PyDict.get sid (run cs st) = Some d' ∧ session_le d d'.
Proof.
  revert st d. induction cs as [| c cs IH]; intros st d Hget Hcs; [by exists d |].
  simpl in Hcs. apply andb_true_iff in Hcs as [Hc%negb_true_iff Hcs].
  destruct (exec_session_le c st sid d Hget Hc) as (d1 & Hget1 & Hle1).
  destruct (IH (exec c st) d1 Hget1 Hcs) as (d' & Hget' & Hle').
  exists d'. split; [done |]. by etrans.
Qed.

Lemma session_fields_never_decrease_witness :
  PyDict.get "s1" store_s1 = Some (_SessionData.mk "s1" 0 0 0 t0)
  ∧ forallb (λ c, negb (clears "s1" c))
      [AddSamples "s1" mixed_batch (t0 - 5); CreateOrGetSession (Some "s1") 9%N (t0 - 7);
       ClearSession "s2"; AddSamples "s1" one_minute_50 (t0 - 9); ListSessions] = true
  ∧ ∃ d', PyDict.get "s1"
            (run [AddSamples "s1" mixed_batch (t0 - 5);
                  CreateOrGetSession (Some "s1") 9%N (t0 - 7);
                  ClearSession "s2"; AddSamples "s1" one_minute_50 (t0 - 9);
                  ListSessions] store_s1) = Some d'
          ∧ session_le (_SessionData.mk "s1" 0 0 0 t0) d'.
Proof.
  split; [vm_compute; reflexivity |].
  split; [vm_compute; reflexivity |].
  apply session_fields_never_decrease; vm_compute; reflexivity.
Defined.

(** ** Words per minute *)

(** C4: with a positive [total_duration_ms] the WPM is the formula
    [(total_chars / 5) / (total_duration_ms / 60000)] evaluated in
    Python's arithmetic, a number for all non-negative totals below
    2^1023; with [total_duration_ms] zero it is [0.0] whatever
    [total_chars] is, and no error; and the totals 50 and 60000 give
    [10.0]. *)
Theorem compute_wpm_formula total_chars total_duration_ms :
  (0 < total_duration_ms →
     _compute_wpm total_chars total_duration_ms = wpm_formula total_chars total_duration_ms)
  ∧ (0 ≤ total_chars < 2 ^ 1023 → 0 < total_duration_ms < 2 ^ 1023 →
     ∃ w, wpm_formula total_chars total_duration_ms = Ok w ∧ PyFloat.is_nan w = false)
  ∧ _compute_wpm total_chars 0 = Ok PyFloat.zero
  ∧ _compute_wpm 50 60000 = Ok (PyFloat.lit 10)
  ∧ (∀ w, _compute_wpm 50 60000 = Ok w → PyFloat.eqb w (PyFloat.lit 10) = true).
Proof.
  assert (0 < total_duration_ms →
          _compute_wpm total_chars total_duration_ms
          = wpm_formula total_chars total_duration_ms) as Hformula.
  { intros Hpos. unfold _compute_wpm, wpm_formula.
    destruct (Z.leb_spec total_duration_ms 0); [lia | done]. }
  split; [done |]. split.
  - intros Hc Hd. rewrite <- Hformula by lia.
    destruct (compute_wpm_returns total_chars total_duration_ms) as (w & ? & ? & _);
      [lia .. |]. by exists w.
  - split; [done |]. split; [vm_compute; reflexivity |].
    intros w Hw. vm_compute in Hw. injection Hw as <-. vm_compute. reflexivity.
Qed.

Lemma compute_wpm_formula_witness :
  0 < 60000 ∧ _compute_wpm 50 60000 = wpm_formula 50 60000.
Proof.
  split; [lia |]. apply (proj1 (compute_wpm_formula 50 60000)). lia.
Defined.

(** C5: for a registered session, in any state the program can reach,
    the [wpm] of [get_session_stats] and the [avg_wpm] of
    [get_session_summary] are the same value, both being [_compute_wpm]
    of the session's two totals: the two reads succeed or fail together,
    the two values returned are equal under Python's [==], and both reads
    return whenever the totals are below 2^1023. *)
Theorem stats_wpm_is_summary_avg_wpm sid st sess :
  reachable st →
  PyDict.get sid st = Some sess →
  SpeedStat.wpm <$> get_session_stats sid st
  = SessionSummary.avg_wpm <$> get_session_summary sid st
  ∧ SpeedStat.wpm <$> get_session_stats sid st
    = _compute_wpm (_SessionData.total_chars sess) (_SessionData.total_duration_ms sess)
  ∧ (∀ stat summary,
      get_session_stats sid st = Ok stat →
      get_session_summary sid st = Ok summary →
      SpeedStat.wpm stat = SessionSummary.avg_wpm summary
      ∧ PyFloat.eqb (SpeedStat.wpm stat) (SessionSummary.avg_wpm summary) = true)
  ∧ (_SessionData.total_chars sess < 2 ^ 1023 →
     _SessionData.total_duration_ms sess < 2 ^ 1023 →
     ∃ stat summary,
       get_session_stats sid st = Ok stat ∧ get_session_summary sid st = Ok summary).
Proof.
  intros [_ Hwf]%reachable_wf Hget.
  destruct (Hwf _ _ Hget) as (_ & _ & Hc & Hd & Hn).
  unfold get_session_stats, get_session_summary. rewrite Hget.
  rewrite to_summary_checked by done.
  destruct (compute_wpm_outcome (_SessionData.total_chars sess)
              (_SessionData.total_duration_ms sess) Hc) as
    [(w & Hw & Hnan & _) | (msg & Hw & Hbig)]; rewrite Hw.
  - rewrite bind_Ok, !fmap_Ok. cbn [SpeedStat.wpm SessionSummary.avg_wpm].
    split; [done |]. split; [done |]. split.
    + intros stat summary [= <-] [= <-]. cbn [SpeedStat.wpm SessionSummary.avg_wpm].
      split; [done | by apply PyFloat_eqb_refl].
    + intros _ _. exact (ex_intro _ _ (ex_intro _ _ (conj eq_refl eq_refl))).
  - split; [done |]. split; [done |]. split; [done |]. intros ? ?. lia.
Qed.

Lemma stats_wpm_is_summary_avg_wpm_witness :
  reachable store_s1_50
  ∧ PyDict.get "s1" store_s1_50 = Some (_SessionData.mk "s1" 50 60000 1 (t0 + 2))
  ∧ SpeedStat.wpm <$> get_session_stats "s1" store_s1_50
    = SessionSummary.avg_wpm <$> get_session_summary "s1" store_s1_50.
Proof.
  split; [exact store_s1_50_reachable |].
  split; [vm_compute; reflexivity |].
  apply (stats_wpm_is_summary_avg_wpm "s1" store_s1_50
           (_SessionData.mk "s1" 50 60000 1 (t0 + 2))).
  - exact store_s1_50_reachable.
  - vm_compute; reflexivity.
Defined.

(** ** Creating sessions *)

(** C6: in every state the program can reach, [create_or_get_session]
    with an id that is registered returns that id and the registry
    unchanged, so the session's aggregates are as before; a second call
    with the same id does the same. *)
Theorem create_or_get_existing_session st sid d uuid now uuid' now' :
  reachable st →
  PyDict.get sid st = Some d →
  create_or_get_session (Some sid) uuid now st = (st, sid)
  ∧ PyDict.get sid (create_or_get_session (Some sid) uuid now st).1 = Some d
  ∧ create_or_get_session (Some sid) uuid' now'
      (create_or_get_session (Some sid) uuid now st).1 = (st, sid).
Proof.
  intros Hreach Hget.
  assert (sid ≠ "") as Hsid.
  { intros ->. by rewrite reachable_no_empty_id in Hget. }
  assert (∀ u n, create_or_get_session (Some sid) u n st = (st, sid)) as Hcall.
  { intros u n. rewrite (create_existing (Some sid) u n st d);
      by rewrite sid_or_uuid_provided. }
  by rewrite !Hcall.
Qed.

Lemma create_or_get_existing_session_witness :
  reachable store_s1_50
  ∧ PyDict.get "s1" store_s1_50 = Some (_SessionData.mk "s1" 50 60000 1 (t0 + 2))
  ∧ create_or_get_session (Some "s1") 11%N (t0 + 9) store_s1_50 = (store_s1_50, "s1").
Proof.
  split; [exact store_s1_50_reachable |].
  split; [vm_compute; reflexivity |].
  apply (create_or_get_existing_session store_s1_50 "s1"
           (_SessionData.mk "s1" 50 60000 1 (t0 + 2)) 11%N (t0 + 9) 11%N (t0 + 9)).
  - exact store_s1_50_reachable.
  - vm_compute; reflexivity.
Defined.

(** C7, as stated, fails for the empty string: it is a provided id that
    is not registered, yet the session is created under the printed UUID
    and that UUID is returned. *)
Lemma create_or_get_empty_id_not_registered :
  PyDict.get "" InMemoryTypingStore.__init__ = None
  ∧ ¬ registers_exact_id "" 7%N t0 InMemoryTypingStore.__init__.
Proof.
  split; [done |]. intros [Hid _]. vm_compute in Hid. discriminate Hid.
Qed.

(** C7, amended: for every non-empty id that is not registered,
    [create_or_get_session] registers under that very id a session with
    [total_chars], [total_duration_ms] and [samples_count] all zero, and
    returns that id. *)
Theorem create_or_get_new_session st sid uuid now :
  sid ≠ "" →
  PyDict.get sid st = None →
  registers_exact_id sid uuid now st.
Proof.
  intros Hsid Hget. unfold registers_exact_id.
  rewrite (create_fresh (Some sid) uuid now st); rewrite sid_or_uuid_provided by done;
    [| done].
  simpl. by rewrite get_setitem_eq.
Qed.

Lemma create_or_get_new_session_witness :
  "s2" ≠ "" ∧ PyDict.get "s2" store_s1 = None
  ∧ registers_exact_id "s2" 7%N (t0 + 4) store_s1.
Proof.
  split; [discriminate |].
  split; [vm_compute; reflexivity |].
  apply (create_or_get_new_session store_s1 "s2" 7%N (t0 + 4));
    [discriminate | vm_compute; reflexivity].
Defined.

End claims.

(** * Further properties of the store *)

Section store_extras.
Import InMemoryTypingStore Scenario.
Implicit Types (st : InMemoryTypingStore.t) (sid : string)
  (samples : list TypingSample.t) (sess : _SessionData.t) (now : datetime.utc).

(** ** The registry *)

(** X1: in every registry the program can reach, the key order has no
    duplicates and lists exactly the registered ids, and every session is
    filed under the non-empty id it carries, with counters that are not
    negative. *)
Theorem reachable_registry_invariant st :
  reachable st →
  NoDup (PyDict.order st)
  ∧ (∀ k, k ∈ PyDict.order st ↔ is_Some (PyDict.get k st))
  ∧ ∀ k d, PyDict.get k st = Some d →
      k ≠ "" ∧ _SessionData.session_id d = k
      ∧ 0 ≤ _SessionData.total_chars d
      ∧ 0 ≤ _SessionData.total_duration_ms d
      ∧ 0 ≤ _SessionData.samples_count d.
Proof. intros [[Hnd Hdom] Hall]%reachable_wf. by split; [| split]. Qed.

Lemma reachable_registry_invariant_witness :
  reachable store_s1_50 ∧ NoDup (PyDict.order store_s1_50).
Proof.
  split; [exact store_s1_50_reachable |].
  apply (reachable_registry_invariant store_s1_50 store_s1_50_reachable).
Defined.

(** The session [add_samples] stores is the one it found with a prefix of
    the batch accumulated, its [last_updated] apart. *)
Lemma add_samples_stores_prefix sid samples now st sess :
  PyDict.get sid st = Some sess →
  ∃ sess' pre,
    (add_samples sid samples now st).1 = PyDict.setitem sid sess' st
    ∧ forallb (valid_sample sid) pre = true
    ∧ _SessionData.total_chars sess'
      = _SessionData.total_chars sess + sum_of TypingSample.chars_typed pre
    ∧ _SessionData.total_duration_ms sess'
      = _SessionData.total_duration_ms sess + sum_of TypingSample.duration_ms pre
    ∧ _SessionData.samples_count sess'
      = _SessionData.samples_count sess + Z.of_nat (length pre).
Proof.
  intros Hget. destruct samples as [| s samples].
  { exists sess, []. cbn. rewrite setitem_id by done. repeat split; lia. }
  destruct (forallb (valid_sample sid) (s :: samples)) eqn:Hall.
  - rewrite (add_samples_all_valid sid (s :: samples) now st sess) by done.
    cbv zeta. cbn [fst]. eexists _, (s :: samples). split; [done |]. split; [done |].
    unfold touch. cbn [_SessionData.total_chars _SessionData.total_duration_ms
      _SessionData.samples_count].
    by rewrite accumulated_total_chars, accumulated_total_duration_ms,
      accumulated_samples_count.
  - destruct (add_samples_some_invalid sid (s :: samples) now st sess Hget Hall)
      as (pre & s' & post & msg & _ & Hpre & _ & ->).
    cbn [fst]. eexists _, pre. split; [done |]. split; [done |].
    by rewrite accumulated_total_chars, accumulated_total_duration_ms,
      accumulated_samples_count.
Qed.

Lemma exec_empty_sessions_are_zero c st :
  empty_sessions_are_zero st → empty_sessions_are_zero (exec c st).
Proof.
  intros Hinv. destruct c as [session_id uuid now | sid samples now | | | | sid];
    cbn [exec]; try done.
  - unfold create_or_get_session.
    destruct (PyDict.contains _ st); cbn [negb fst]; [done |].
    intros k d. destruct (decide (sid_or_uuid session_id uuid = k)) as [<- | Hne].
    + rewrite get_setitem_eq. intros [= <-]. by cbn.
    + rewrite get_setitem_ne by done. apply Hinv.
  - destruct (PyDict.get sid st) as [sess |] eqn:Hget;
      [| by rewrite add_samples_unregistered].
    destruct (add_samples_stores_prefix sid samples now st sess Hget)
      as (sess' & pre & -> & Hpre & Hc & Hd & Hn).
    destruct (Hinv _ _ Hget) as [Hn0 Hzero].
    intros k d. destruct (decide (sid = k)) as [<- | Hne].
    + rewrite get_setitem_eq. intros [= <-]. split; [lia |]. intros Hn'.
      assert (pre = []) as -> by (destruct pre; [done | cbn in Hn; lia]).
      cbn in Hc, Hd. lia.
    + rewrite get_setitem_ne by done. apply Hinv.
  - unfold clear_session. destruct (PyDict.get sid st); cbn [fst]; [| done].
    intros k d. destruct (decide (sid = k)) as [<- | Hne].
    + by rewrite get_delitem_eq.
    + rewrite get_delitem_ne by done. apply Hinv.
Qed.

(** X2: in every registry the program can reach, a session whose
    [samples_count] is zero has [total_chars] and [total_duration_ms] zero,
    and its WPM is [0.0]. *)
Theorem session_without_samples_is_zero st sid sess :
  reachable st →
  PyDict.get sid st = Some sess →
  _SessionData.samples_count sess = 0 →
  _SessionData.total_chars sess = 0
  ∧ _SessionData.total_duration_ms sess = 0
  ∧ SpeedStat.wpm <$> get_session_stats sid st = Ok PyFloat.zero.
Proof.
  intros Hreach Hget Hn.
  assert (empty_sessions_are_zero st) as Hinv.
  { clear -Hreach. induction Hreach; [| by apply exec_empty_sessions_are_zero].
    intros k d. unfold InMemoryTypingStore.__init__. by rewrite get_empty. }
  destruct (Hinv _ _ Hget) as [_ [Hc Hd]]; [done |].
  repeat split; try done.
  unfold get_session_stats. by rewrite Hget, Hc, Hd.
Qed.

Lemma session_without_samples_is_zero_witness :
  reachable store_s1
  ∧ PyDict.get "s1" store_s1 = Some (_SessionData.mk "s1" 0 0 0 t0)
  ∧ SpeedStat.wpm <$> get_session_stats "s1" store_s1 = Ok PyFloat.zero.
Proof.
  split; [exact store_s1_reachable |].
  split; [vm_compute; reflexivity |].
  apply (session_without_samples_is_zero store_s1 "s1" (_SessionData.mk "s1" 0 0 0 t0)).
  - exact store_s1_reachable.
  - vm_compute; reflexivity.
  - reflexivity.
Defined.

(** ** Appending *)

(** X3: [add_samples] never registers or deletes an id: whatever its
    arguments and its outcome, the registered ids and their order are as
    before, and every session other than the one it was called for is
    untouched. *)
Theorem add_samples_keeps_other_sessions sid samples now st :
  PyDict.order (add_samples sid samples now st).1 = PyDict.order st
  ∧ (∀ k, is_Some (PyDict.get k (add_samples sid samples now st).1)
          ↔ is_Some (PyDict.get k st))
  ∧ ∀ k, k ≠ sid → PyDict.get k (add_samples sid samples now st).1 = PyDict.get k st.
Proof.
  destruct (PyDict.get sid st) as [sess |] eqn:Hget.
  - destruct (add_samples_store sid samples now st sess Hget) as (sess' & -> & _).
    split; [| split].
    + unfold PyDict.setitem. cbn [PyDict.order]. by rewrite (contains_Some _ _ _ Hget).
    + intros k. destruct (decide (sid = k)) as [<- | Hne].
      * rewrite get_setitem_eq, Hget. split; eauto.
      * by rewrite get_setitem_ne.
    + intros k Hne. by rewrite get_setitem_ne.
  - by rewrite add_samples_unregistered.
Qed.

(** The outcome of [to_summary] is never a [KeyError] or a [ValueError]. *)
Lemma to_summary_not_lookup_or_value sess :
  is_not_found (_SessionData.to_summary sess) = false
  ∧ is_validation_failure (_SessionData.to_summary sess) = false.
Proof.
  unfold _SessionData.to_summary, SessionSummary.__init__, _compute_wpm,
    PyFloat.int_truediv, PyFloat.of_int, PyFloat.truediv.
  destruct (_ <=? 0).
  { rewrite bind_Ok. by destruct (SessionSummary.constraints _). }
  destruct (binary_normalize _ _ (_SessionData.total_chars sess) _ _);
    destruct (binary_normalize _ _ (_SessionData.total_duration_ms sess) _ _);
    rewrite ?bind_Ok; try done;
    repeat (destruct (PyFloat.is_zero _); rewrite ?bind_Ok; try done);
    by destruct (SessionSummary.constraints _).
Qed.

(** X4: the two failures of [add_samples] tell the causes apart. It
    raises [KeyError] exactly when the batch is not empty and the session
    is not registered, and [ValueError] exactly when the batch is empty or
    the session is registered and some sample of the batch names another
    session or has a negative counter. *)
Theorem add_samples_failure_causes sid samples now st :
  (is_not_found (add_samples sid samples now st).2 = true
   ↔ samples ≠ [] ∧ PyDict.get sid st = None)
  ∧ (is_validation_failure (add_samples sid samples now st).2 = true
     ↔ samples = []
       ∨ (is_Some (PyDict.get sid st) ∧ forallb (valid_sample sid) samples = false)).
Proof.
  destruct samples as [| s samples].
  { cbn. split; split; try done; [by intros [? _] | by left]. }
  destruct (PyDict.get sid st) as [sess |] eqn:Hget.
  - destruct (forallb (valid_sample sid) (s :: samples)) eqn:Hall.
    + rewrite (add_samples_all_valid sid (s :: samples) now st sess) by done.
      cbv zeta. cbn [snd].
      destruct (to_summary_not_lookup_or_value (touch now
        (foldl (λ acc s0, accumulate s0 acc) sess (s :: samples)))) as [-> ->].
      split; split; try done; [by intros [_ ?] | by intros [? | [_ ?]]].
    + destruct (add_samples_some_invalid sid (s :: samples) now st sess Hget Hall)
        as (? & ? & ? & ? & _ & _ & _ & ->). cbn.
      split; split; try done; [by intros [_ ?] | intros _; right; eauto].
  - unfold add_samples. rewrite Hget. cbn.
    split; split; try done. intros [? | [[? ?] _]]; done.
Qed.

(** X5: a successful append never leaves [last_updated] before its value
    at the start of the call, nor before the time of the call. *)
Theorem add_samples_last_updated_bounds sid samples now st sess :
  PyDict.get sid st = Some sess →
  samples ≠ [] →
  forallb (valid_sample sid) samples = true →
  ∃ sess',
    PyDict.get sid (add_samples sid samples now st).1 = Some sess'
    ∧ _SessionData.last_updated sess ≤ _SessionData.last_updated sess'
    ∧ now ≤ _SessionData.last_updated sess'.
Proof.
  intros Hget Hne Hall.
  destruct (add_samples_last_updated sid samples now st sess Hget Hne Hall)
    as (sess' & Hget' & Hlu).
  exists sess'. split; [done |]. rewrite Hlu.
  pose proof (latest_ge (λ s, datetime.replace_tzinfo_utc (TypingSample.timestamp s))
                (_SessionData.last_updated sess) samples). lia.
Qed.

Lemma add_samples_last_updated_bounds_witness :
  PyDict.get "s1" store_s1 = Some (_SessionData.mk "s1" 0 0 0 t0)
  ∧ ahead_of_utc ≠ []
  ∧ forallb (valid_sample "s1") ahead_of_utc = true
  ∧ ∃ sess',
      PyDict.get "s1" (add_samples "s1" ahead_of_utc (t0 + 7) store_s1).1 = Some sess'
      ∧ t0 ≤ _SessionData.last_updated sess'
      ∧ t0 + 7 ≤ _SessionData.last_updated sess'.
Proof.
  split; [vm_compute; reflexivity |].
  split; [discriminate |].
  split; [vm_compute; reflexivity |].
  apply (add_samples_last_updated_bounds "s1" ahead_of_utc (t0 + 7) store_s1
           (_SessionData.mk "s1" 0 0 0 t0)).
  - vm_compute; reflexivity.
  - discriminate.
  - vm_compute; reflexivity.
Defined.

(** ** Creating and deleting *)

(** X6: whatever id it is given, [create_or_get_session] returns a
    non-empty id that is registered when it returns, and leaves every
    session that was registered as it was. Either the registry is
    unchanged, or the returned id was not registered and is now the last
    key, with a session of zero totals stamped with the time of the call.
    Given no id, or the empty string, the id is the printed UUID. *)
Theorem create_or_get_session_registers session_id uuid now st :
  let out := create_or_get_session session_id uuid now st in
  out.2 ≠ ""
  ∧ is_Some (PyDict.get out.2 out.1)
  ∧ (∀ k d, PyDict.get k st = Some d → PyDict.get k out.1 = Some d)
  ∧ (out.1 = st
     ∨ (PyDict.get out.2 st = None
        ∧ PyDict.order out.1 = PyDict.order st ++ [out.2]
        ∧ PyDict.get out.2 out.1 = Some (_SessionData.mk out.2 0 0 0 now)))
  ∧ (session_id = None ∨ session_id = Some "" → out.2 = UUID.str uuid).
Proof.
  cbv zeta. set (sid := sid_or_uuid session_id uuid).
  assert (session_id = None ∨ session_id = Some "" → sid = UUID.str uuid) as Hnone.
  { by intros [-> | ->]. }
  destruct (PyDict.get sid st) as [d0 |] eqn:Hget.
  - rewrite (create_existing session_id uuid now st d0 Hget). cbn [fst snd]. fold sid.
    split; [apply sid_or_uuid_nonempty |]. split; [by rewrite Hget |].
    split; [done |]. split; [by left | done].
  - rewrite (create_fresh session_id uuid now st Hget). cbn [fst snd]. fold sid.
    split; [apply sid_or_uuid_nonempty |]. split; [by rewrite get_setitem_eq |].
    split; [| split; [right | done]].
    + intros k d Hk. rewrite get_setitem_ne; [done |]. intros <-. congruence.
    + split; [done |]. split; [| by rewrite get_setitem_eq].
      unfold PyDict.setitem. cbn [PyDict.order]. by rewrite (contains_None _ _ Hget).
Qed.

(** X7: [clear_session] raises [KeyError] exactly when the id is not
    registered, and then changes nothing. Otherwise it removes that id
    from the entries and from the key order, and no other session. In both
    cases the id is not registered afterwards, so that clearing it again
    raises [KeyError]. *)
Theorem clear_session_removes sid st :
  let out := clear_session sid st in
  (PyDict.get sid st = None → out = (st, Raise (KeyError "session not found")))
  ∧ (is_Some (PyDict.get sid st) →
     out.2 = Ok ()
     ∧ PyDict.order out.1 = filter (λ k, k ≠ sid) (PyDict.order st))
  ∧ PyDict.get sid out.1 = None
  ∧ (∀ k, k ≠ sid → PyDict.get k out.1 = PyDict.get k st)
  ∧ clear_session sid out.1 = (out.1, Raise (KeyError "session not found")).
Proof.
  cbv zeta. destruct (PyDict.get sid st) as [d |] eqn:Hget.
  - assert (clear_session sid st = (PyDict.delitem sid st, Ok ())) as ->
      by (unfold clear_session; by rewrite Hget).
    cbn [fst snd]. split; [done |]. split; [done |]. split; [apply get_delitem_eq |].
    split; [intros k Hne; by apply get_delitem_ne |].
    unfold clear_session. by rewrite get_delitem_eq.
  - assert (clear_session sid st = (st, Raise (KeyError "session not found"))) as Hout
      by (unfold clear_session; by rewrite Hget).
    rewrite Hout. cbn [fst snd].
    split; [done |]. split; [by intros [? ?] |]. split; [done |]. split; [done |].
    done.
Qed.

(** Reads of an id fail as not found exactly when it is not registered. *)
Lemma get_session_summary_not_found sid st :
  is_not_found (get_session_summary sid st) = true ↔ PyDict.get sid st = None.
Proof.
  unfold get_session_summary. destruct (PyDict.get sid st) as [sess |]; [| done].
  destruct (to_summary_not_lookup_or_value sess) as [-> _]. done.
Qed.

Lemma get_session_stats_not_found sid st :
  is_not_found (get_session_stats sid st) = true ↔ PyDict.get sid st = None.
Proof.
  unfold get_session_stats. destruct (PyDict.get sid st) as [sess |]; [| done].
  pose proof (to_summary_not_lookup_or_value sess) as [Hnf _].
  unfold _SessionData.to_summary in Hnf.
  destruct (_compute_wpm _ _) as [w | e]; [done |].
  cbn in Hnf. cbn. by rewrite Hnf.
Qed.

(** X8: once [clear_session] has deleted a session, both reads of its id
    raise [KeyError], and [add_samples] for it raises [KeyError] and
    changes nothing, until the id is created again. *)
Theorem cleared_session_is_not_found sid samples now st :
  let st' := (clear_session sid st).1 in
  get_session_summary sid st' = Raise (KeyError "session not found")
  ∧ get_session_stats sid st' = Raise (KeyError "session not found")
  ∧ (samples ≠ [] →
     add_samples sid samples now st' = (st', Raise (KeyError "session not found"))).
Proof.
  cbv zeta.
  assert (PyDict.get sid (clear_session sid st).1 = None) as Hget.
  { unfold clear_session. destruct (PyDict.get sid st) eqn:E; cbn [fst]; [| done].
    apply get_delitem_eq. }
  unfold get_session_summary, get_session_stats, add_samples.
  rewrite Hget. repeat split. intros Hne. by destruct samples.
Qed.

(** X9: [get_session_stats] raises [KeyError] exactly when the id is not
    registered; what it returns carries the id it was asked for, the
    session's [last_updated], and never an accuracy. *)
Theorem get_session_stats_fields sid st :
  (is_not_found (get_session_stats sid st) = true ↔ PyDict.get sid st = None)
  ∧ ∀ stat, get_session_stats sid st = Ok stat →
      SpeedStat.session_id stat = sid
      ∧ SpeedStat.accuracy stat = None
      ∧ ∃ sess, PyDict.get sid st = Some sess
                ∧ SpeedStat.last_updated stat = _SessionData.last_updated sess.
Proof.
  split; [apply get_session_stats_not_found |].
  intros stat. unfold get_session_stats.
  destruct (PyDict.get sid st) as [sess |]; [| done].
  destruct (_compute_wpm _ _) as [w | e]; [| done].
  rewrite bind_Ok. intros [= <-]. cbn. eauto.
Qed.

(** X10: deleting a session and creating it again under the same id
    starts it from zero: nothing of its earlier totals is kept. *)
Theorem clear_then_create_starts_from_zero sid uuid now st d :
  sid ≠ "" →
  PyDict.get sid st = Some d →
  PyDict.get sid (run [ClearSession sid; CreateOrGetSession (Some sid) uuid now] st)
  = Some (_SessionData.mk sid 0 0 0 now)
  ∧ get_session_summary sid
      (run [ClearSession sid; CreateOrGetSession (Some sid) uuid now] st)
    = Ok (SessionSummary.mk sid 0 0 PyFloat.zero 0 now).
Proof.
  intros Hsid Hget.
  pose proof (clear_then_create_resets sid uuid now st d Hsid Hget) as Hnew.
  split; [done |]. unfold get_session_summary. by rewrite Hnew.
Qed.

Lemma clear_then_create_starts_from_zero_witness :
  "s1" ≠ ""
  ∧ PyDict.get "s1" store_s1_50 = Some (_SessionData.mk "s1" 50 60000 1 (t0 + 2))
  ∧ PyDict.get "s1"
      (run [ClearSession "s1"; CreateOrGetSession (Some "s1") 3%N (t0 + 9)] store_s1_50)
    = Some (_SessionData.mk "s1" 0 0 0 (t0 + 9)).
Proof.
  split; [discriminate |].
  split; [vm_compute; reflexivity |].
  apply (clear_then_create_starts_from_zero "s1" 3%N (t0 + 9) store_s1_50
           (_SessionData.mk "s1" 50 60000 1 (t0 + 2)));
    [discriminate | vm_compute; reflexivity].
Defined.

(** ** Listing *)

Lemma values_lookup {V} (d : PyDict.t V) :
  PyDict.wf d →
  Forall2 (λ k v, PyDict.get k d = Some v) (PyDict.order d) (PyDict.values d).
Proof.
  intros [_ Hdom]. unfold PyDict.values, PyDict.get.
  assert (∀ k, k ∈ PyDict.order d → is_Some (PyDict.items d !! k)) as Hall
    by (intros k; apply Hdom).
  clear Hdom. induction (PyDict.order d) as [| k ks IH]; [constructor |].
  destruct (Hall k) as [v Hv]; [by left |].
  cbn [omap list_omap]. rewrite Hv. constructor; [done |].
  apply IH. intros k' Hk'. apply Hall. by right.
Qed.

Lemma mapM_Forall2_ext {A A' B} (f : A → result B) (g : A' → result B) l l' :
  Forall2 (λ x x', f x = g x') l l' → mapM f l = mapM g l'.
Proof. induction 1 as [| x x' l l' Hx _ IH]; [done |]. cbn. by rewrite Hx, IH. Qed.

Lemma mapM_all_Ok {A B} (f : A → result B) (P : A → B → Prop) l :
  (∀ x, x ∈ l → ∃ y, f x = Ok y ∧ P x y) →
  ∃ k, mapM f l = Ok k ∧ Forall2 (λ x y, f x = Ok y ∧ P x y) l k.
Proof.
  induction l as [| x l IH]; intros Hall; [by exists [] |].
  destruct (Hall x) as (y & Hy & HP); [by left |].
  destruct IH as (k & Hk & Hks); [intros x' Hx'; apply Hall; by right |].
  exists (y :: k). split; [| by constructor]. cbn. by rewrite Hy, Hk.
Qed.

(** X11: in every registry the program can reach, [list_sessions] is
    [get_session_summary] of each registered id, taken in the order in
    which the ids were registered, failing as the first of them that
    fails; when all totals are below 2^1023 it returns one summary for
    each registered id, in that order. *)
Theorem list_sessions_in_registration_order st :
  reachable st →
  list_sessions st = mapM (λ k, get_session_summary k st) (PyDict.order st)
  ∧ ((∀ k d, PyDict.get k st = Some d →
        _SessionData.total_chars d < 2 ^ 1023
        ∧ _SessionData.total_duration_ms d < 2 ^ 1023) →
     ∃ l, list_sessions st = Ok l
          ∧ Forall2 (λ k s, get_session_summary k st = Ok s
                            ∧ SessionSummary.session_id s = k) (PyDict.order st) l).
Proof.
  intros [Hwf Hall]%reachable_wf.
  assert (list_sessions st = mapM (λ k, get_session_summary k st) (PyDict.order st)) as Heq.
  { unfold list_sessions. symmetry. apply mapM_Forall2_ext.
    eapply Forall2_impl; [apply (values_lookup st Hwf) |].
    intros k v Hk. cbn beta. unfold get_session_summary.
    by replace (PyDict.get k st) with (Some v). }
  split; [done |]. intros Hbound. rewrite Heq.
  apply mapM_all_Ok. intros k Hk.
  destruct Hwf as [_ Hdom]. apply Hdom in Hk as [d Hd].
  change (PyDict.get k st = Some d) in Hd.
  destruct (Hall _ _ Hd) as (_ & Hid & ? & ? & ?).
  destruct (Hbound _ _ Hd) as [? ?].
  destruct (to_summary_returns d) as (s & Hs & _); [lia .. |].
  exists s. unfold get_session_summary. rewrite Hd. split; [done |].
  apply to_summary_Ok in Hs as (-> & _). done.
Qed.

Lemma list_sessions_in_registration_order_witness :
  reachable store_s1_50
  ∧ list_sessions store_s1_50
    = mapM (λ k, get_session_summary k store_s1_50) (PyDict.order store_s1_50).
Proof.
  split; [exact store_s1_50_reachable |].
  apply (list_sessions_in_registration_order store_s1_50 store_s1_50_reachable).
Defined.

(** ** Words per minute *)

(** X12: on a [total_chars] that is not negative, [_compute_wpm] returns
    a float that is a number and is not negative, or raises the
    [OverflowError] of a total of 2^1023 or more; it never divides by
    zero. *)
Theorem compute_wpm_is_a_number total_chars total_duration_ms :
  0 ≤ total_chars →
  (∀ w, _compute_wpm total_chars total_duration_ms = Ok w →
     PyFloat.is_nan w = false ∧ PyFloat.leb PyFloat.zero w = true)
  ∧ (∀ e, _compute_wpm total_chars total_duration_ms = Raise e →
       (∃ msg, e = OverflowError msg)
       ∧ (2 ^ 1023 ≤ total_chars ∨ 2 ^ 1023 ≤ total_duration_ms)).
Proof.
  intros Hc.
  destruct (compute_wpm_outcome total_chars total_duration_ms Hc) as
    [(w & -> & ? & ?) | (msg & -> & ?)]; split; try done.
  - by intros w' [= <-].
  - intros e [= <-]. eauto.
Qed.

Lemma compute_wpm_is_a_number_witness :
  0 ≤ 50
  ∧ ∀ w, _compute_wpm 50 60000 = Ok w →
      PyFloat.is_nan w = false ∧ PyFloat.leb PyFloat.zero w = true.
Proof.
  split; [lia |]. apply (compute_wpm_is_a_number 50 60000). lia.
Defined.

(** X13: with no characters typed the WPM is [0.0] for every duration
    below 2^1023. *)
Theorem compute_wpm_no_chars total_duration_ms :
  total_duration_ms < 2 ^ 1023 →
  _compute_wpm 0 total_duration_ms = Ok PyFloat.zero.
Proof.
  intros Hd. unfold _compute_wpm.
  destruct (Z.leb_spec total_duration_ms 0) as [Hle | Hpos]; [done |].
  destruct (int_truediv_pos total_duration_ms (PyFloat.lit 60000)
              8246337208320000 (-37)) as
    [(mm & em & -> & _) | (msg & _ & Hbig)];
    [lia | vm_compute; reflexivity | vm_compute; reflexivity | lia | | lia].
  reflexivity.
Qed.

Lemma compute_wpm_no_chars_witness :
  60000 < 2 ^ 1023 ∧ _compute_wpm 0 60000 = Ok PyFloat.zero.
Proof.
  split; [reflexivity |]. apply (compute_wpm_no_chars 60000). reflexivity.
Defined.

End store_extras.

(** * Properties of the router and of the request models *)

Section router_extras.
Import InMemoryTypingStore Scenario.
Implicit Types (st : InMemoryTypingStore.t) (sid : string)
  (samples : list TypingSample.t) (sess : _SessionData.t) (now : datetime.utc)
  (request : SubmissionRequest.t).

(** The validation loop of the handler and the one of the store accept
    the same batches. *)
Lemma check_samples_None sid samples :
  typing_router.check_samples sid samples = None
  ↔ forallb (valid_sample sid) samples = true.
Proof.
  induction samples as [| s samples IH]; [done |].
  cbn [typing_router.check_samples forallb].
  destruct (valid_sample sid s) eqn:Hs.
  - apply valid_sample_spec in Hs as (Hid & Hc & Hd).
    rewrite bool_decide_eq_false_2 by (intros ?; done).
    destruct (Z.ltb_spec (TypingSample.chars_typed s) 0); [lia |].
    destruct (Z.ltb_spec (TypingSample.duration_ms s) 0); [lia |]. apply IH.
  - cbn [andb]. split; [| done]. case_bool_decide as Hid; [done |].
    destruct (_ || _) eqn:Hneg; [done |]. intros _.
    apply orb_false_iff in Hneg as [Hc%Z.ltb_ge Hd%Z.ltb_ge].
    assert (valid_sample sid s = true) as Hv; [| congruence].
    apply valid_sample_spec. split; [| done].
    destruct (decide (TypingSample.session_id s = sid)); done.
Qed.

Lemma check_samples_Some sid samples code detail :
  typing_router.check_samples sid samples = Some (code, detail) →
  code = 400 ∧ forallb (valid_sample sid) samples = false.
Proof.
  intros Hsome. split.
  - induction samples as [| s samples IH]; [done |].
    cbn [typing_router.check_samples] in Hsome.
    case_bool_decide; [by injection Hsome as <- _ |].
    destruct (_ || _); [by injection Hsome as <- _ | by apply IH].
  - destruct (forallb _ _) eqn:Hall; [| done].
    apply check_samples_None in Hall. congruence.
Qed.

(** On a session of a reachable registry a valid batch ends in a summary
    or in the [OverflowError] of a total too large for a float. *)
Lemma add_samples_valid_outcome sid samples now st sess :
  wf_store st →
  PyDict.get sid st = Some sess →
  samples ≠ [] →
  forallb (valid_sample sid) samples = true →
  (∃ summary, (add_samples sid samples now st).2 = Ok summary)
  ∨ (∃ msg, (add_samples sid samples now st).2 = Raise (OverflowError msg)).
Proof.
  intros [_ Hwf] Hget Hne Hall.
  rewrite (add_samples_all_valid sid samples now st sess) by done. cbv zeta. cbn [snd].
  set (sess' := touch now _).
  destruct (Hwf _ _ Hget) as (_ & _ & ? & ? & ?).
  destruct (forallb_valid_Forall _ _ Hall) as [Hcs Hds].
  pose proof (sum_of_nonneg _ _ Hcs). pose proof (sum_of_nonneg _ _ Hds).
  assert (_SessionData.total_chars sess'
          = _SessionData.total_chars sess + sum_of TypingSample.chars_typed samples) as Hc
    by apply accumulated_total_chars.
  assert (_SessionData.total_duration_ms sess'
          = _SessionData.total_duration_ms sess + sum_of TypingSample.duration_ms samples) as Hd
    by apply accumulated_total_duration_ms.
  assert (_SessionData.samples_count sess'
          = _SessionData.samples_count sess + Z.of_nat (length samples)) as Hn
    by apply accumulated_samples_count.
  rewrite to_summary_checked by lia.
  destruct (compute_wpm_outcome (_SessionData.total_chars sess')
              (_SessionData.total_duration_ms sess')) as
    [(w & -> & _) | (msg & -> & _)]; [lia | left | right]; by eexists.
Qed.

(** The handler's answer by cases. *)
Lemma submit_samples_empty request now st :
  SubmissionRequest.samples request = [] →
  typing_router.submit_samples request now st
  = (st, HTTPException 400 "samples must be non-empty").
Proof. intros Hs. unfold typing_router.submit_samples. by rewrite Hs. Qed.

Lemma submit_samples_invalid request now st :
  SubmissionRequest.samples request ≠ [] →
  forallb (valid_sample (SubmissionRequest.session_id request))
    (SubmissionRequest.samples request) = false →
  ∃ detail, typing_router.submit_samples request now st = (st, HTTPException 400 detail).
Proof.
  intros Hne Hall. unfold typing_router.submit_samples.
  destruct (SubmissionRequest.samples request) as [| s samples] eqn:Hs; [done |].
  destruct (typing_router.check_samples _ _) as [[code detail] |] eqn:Hcheck.
  - apply check_samples_Some in Hcheck as [-> _]. by exists detail.
  - apply check_samples_None in Hcheck. congruence.
Qed.

Lemma submit_samples_valid request now st :
  SubmissionRequest.samples request ≠ [] →
  forallb (valid_sample (SubmissionRequest.session_id request))
    (SubmissionRequest.samples request) = true →
  typing_router.submit_samples request now st
  = match add_samples (SubmissionRequest.session_id request)
            (SubmissionRequest.samples request) now st with
    | (st', Ok summary) => (st', Return summary)
    | (st', Raise e) =>
        if is_KeyError e
        then (st', HTTPException 404 "session not found")
        else match as_ValueError e with
             | Some msg => (st', HTTPException 400 msg)
             | None => (st', Propagate e)
             end
    end.
Proof.
  intros Hne Hall. unfold typing_router.submit_samples.
  destruct (SubmissionRequest.samples request) as [| s samples] eqn:Hs; [done |].
  apply check_samples_None in Hall. by rewrite Hall.
Qed.

Lemma submit_samples_unregistered request now st :
  SubmissionRequest.samples request ≠ [] →
  forallb (valid_sample (SubmissionRequest.session_id request))
    (SubmissionRequest.samples request) = true →
  PyDict.get (SubmissionRequest.session_id request) st = None →
  typing_router.submit_samples request now st
  = (st, HTTPException 404 "session not found").
Proof.
  intros Hne Hall Hget. rewrite submit_samples_valid by done.
  unfold add_samples. rewrite Hget. by destruct (SubmissionRequest.samples request).
Qed.

Lemma submit_samples_registered request now st sess :
  wf_store st →
  SubmissionRequest.samples request ≠ [] →
  forallb (valid_sample (SubmissionRequest.session_id request))
    (SubmissionRequest.samples request) = true →
  PyDict.get (SubmissionRequest.session_id request) st = Some sess →
  (∃ summary,
     (add_samples (SubmissionRequest.session_id request)
        (SubmissionRequest.samples request) now st).2 = Ok summary
     ∧ (typing_router.submit_samples request now st).2 = Return summary)
  ∨ (∃ msg, (typing_router.submit_samples request now st).2
            = Propagate (OverflowError msg)).
Proof.
  intros Hwf Hne Hall Hget. rewrite submit_samples_valid by done.
  destruct (add_samples_valid_outcome _ _ now st sess Hwf Hget Hne Hall) as
    [[summary Hout] | [msg Hout]];
    destruct (add_samples _ _ now st) as [st' r]; cbn [snd] in Hout; subst r.
  - left. by exists summary.
  - right. by exists msg.
Qed.

(** X14: through the handler a batch is all or nothing. In every registry
    the program can reach, whenever [submit_samples] answers with an
    [HTTPException], the store is exactly as it was before the request. *)
Theorem submit_samples_refusal_changes_nothing request now st code detail :
  reachable st →
  (typing_router.submit_samples request now st).2 = HTTPException code detail →
  (typing_router.submit_samples request now st).1 = st.
Proof.
  intros Hwf%reachable_wf.
  destruct (decide (SubmissionRequest.samples request = [])) as [Hs | Hne].
  { by rewrite submit_samples_empty. }
  destruct (forallb (valid_sample (SubmissionRequest.session_id request))
              (SubmissionRequest.samples request)) eqn:Hall.
  - destruct (PyDict.get (SubmissionRequest.session_id request) st) as [sess |] eqn:Hget.
    + destruct (submit_samples_registered request now st sess Hwf Hne Hall Hget) as
        [(summary & _ & ->) | (msg & ->)]; done.
    + by rewrite submit_samples_unregistered.
  - destruct (submit_samples_invalid request now st Hne Hall) as [d ->]. done.
Qed.

Lemma submit_samples_refusal_changes_nothing_witness :
  reachable store_s1
  ∧ (typing_router.submit_samples (SubmissionRequest.mk "s1" mixed_batch) (t0 + 2)
       store_s1).2
    = HTTPException 400 "sample.session_id does not match request.session_id"
  ∧ (typing_router.submit_samples (SubmissionRequest.mk "s1" mixed_batch) (t0 + 2)
       store_s1).1 = store_s1.
Proof.
  split; [exact store_s1_reachable |].
  split; [vm_compute; reflexivity |].
  apply (submit_samples_refusal_changes_nothing (SubmissionRequest.mk "s1" mixed_batch)
           (t0 + 2) store_s1 400 "sample.session_id does not match request.session_id").
  - exact store_s1_reachable.
  - vm_compute; reflexivity.
Defined.

(** X15: in every registry the program can reach, [submit_samples]
    answers 400 exactly when the batch is empty or holds a sample that
    names another session or has a negative counter, and 404 exactly when
    the batch is non-empty and valid and the session is not registered; it
    raises no other [HTTPException]. The batch is checked before the
    session is looked up: an invalid batch for an unregistered session is
    a 400. *)
Theorem submit_samples_status request now st :
  reachable st →
  let sid := SubmissionRequest.session_id request in
  let samples := SubmissionRequest.samples request in
  let r := (typing_router.submit_samples request now st).2 in
  ((∃ detail, r = HTTPException 400 detail)
   ↔ samples = [] ∨ forallb (valid_sample sid) samples = false)
  ∧ ((∃ detail, r = HTTPException 404 detail)
     ↔ samples ≠ [] ∧ forallb (valid_sample sid) samples = true
       ∧ PyDict.get sid st = None)
  ∧ ∀ code detail, r = HTTPException code detail → code = 400 ∨ code = 404.
Proof.
  intros Hwf%reachable_wf. cbv zeta.
  destruct (decide (SubmissionRequest.samples request = [])) as [Hs | Hne].
  { rewrite submit_samples_empty by done. cbn [snd]. rewrite Hs.
    split; [| split].
    - split; [by left | by eexists].
    - split; [by intros [? ?] | by intros [? _]].
    - intros code detail [= <- _]. by left. }
  destruct (forallb (valid_sample (SubmissionRequest.session_id request))
              (SubmissionRequest.samples request)) eqn:Hall.
  - destruct (PyDict.get (SubmissionRequest.session_id request) st) as [sess |] eqn:Hget.
    + destruct (submit_samples_registered request now st sess Hwf Hne Hall Hget) as
        [(summary & _ & ->) | (msg & ->)];
        (split; [| split]);
        try (split; [by intros [? ?] | by intros [? | ?]]);
        try (split; [by intros [? ?] | by intros (_ & _ & ?)]); done.
    + rewrite submit_samples_unregistered by done. cbn [snd].
      split; [| split].
      * split; [by intros [? ?] | by intros [? | ?]].
      * split; [done | by eexists].
      * intros code detail [= <- _]. by right.
  - destruct (submit_samples_invalid request now st Hne Hall) as [d ->]. cbn [snd].
    split; [| split].
    + split; [by right | by eexists].
    + split; [by intros [? ?] | by intros (_ & ? & _)].
    + intros code detail [= <- _]. by left.
Qed.

Lemma submit_samples_status_witness :
  reachable store_s1
  ∧ ((∃ detail, (typing_router.submit_samples (SubmissionRequest.mk "s2" mixed_batch)
                   (t0 + 2) store_s1).2 = HTTPException 400 detail)
     ↔ mixed_batch = [] ∨ forallb (valid_sample "s2") mixed_batch = false).
Proof.
  split; [exact store_s1_reachable |].
  apply (submit_samples_status (SubmissionRequest.mk "s2" mixed_batch) (t0 + 2) store_s1
           store_s1_reachable).
Defined.

(** X16: in every registry the program can reach, a non-empty valid batch
    for a registered session whose updated totals stay below 2^1023 is
    answered with the session's summary: the id of the request, the
    totals raised by the sums of the batch and the count raised by its
    length; the store holds those same totals afterwards. *)
Theorem submit_samples_returns_summary request now st sess :
  let sid := SubmissionRequest.session_id request in
  let samples := SubmissionRequest.samples request in
  reachable st →
  PyDict.get sid st = Some sess →
  samples ≠ [] →
  forallb (valid_sample sid) samples = true →
  _SessionData.total_chars sess + sum_of TypingSample.chars_typed samples < 2 ^ 1023 →
  _SessionData.total_duration_ms sess + sum_of TypingSample.duration_ms samples
    < 2 ^ 1023 →
  ∃ summary,
    (typing_router.submit_samples request now st).2 = Return summary
    ∧ get_session_summary sid (typing_router.submit_samples request now st).1
      = Ok summary
    ∧ SessionSummary.session_id summary = sid
    ∧ SessionSummary.total_chars summary
      = _SessionData.total_chars sess + sum_of TypingSample.chars_typed samples
    ∧ SessionSummary.total_duration_ms summary
      = _SessionData.total_duration_ms sess + sum_of TypingSample.duration_ms samples
    ∧ SessionSummary.samples_count summary
      = _SessionData.samples_count sess + Z.of_nat (length samples).
Proof.
  cbv zeta. intros [_ Hwf]%reachable_wf Hget Hne Hall Hc' Hd'.
  rewrite submit_samples_valid by done.
  rewrite (add_samples_all_valid _ _ now st sess) by done. cbv zeta.
  set (sess' := touch now _).
  destruct (Hwf _ _ Hget) as (_ & Hid & ? & ? & ?).
  destruct (forallb_valid_Forall _ _ Hall) as [Hcs Hds].
  pose proof (sum_of_nonneg _ _ Hcs). pose proof (sum_of_nonneg _ _ Hds).
  assert (_SessionData.total_chars sess'
          = _SessionData.total_chars sess
            + sum_of TypingSample.chars_typed (SubmissionRequest.samples request)) as Hc
    by apply accumulated_total_chars.
  assert (_SessionData.total_duration_ms sess'
          = _SessionData.total_duration_ms sess
            + sum_of TypingSample.duration_ms (SubmissionRequest.samples request)) as Hd
    by apply accumulated_total_duration_ms.
  assert (_SessionData.samples_count sess'
          = _SessionData.samples_count sess
            + Z.of_nat (length (SubmissionRequest.samples request))) as Hn
    by apply accumulated_samples_count.
  assert (_SessionData.session_id sess' = SubmissionRequest.session_id request) as Hid'.
  { unfold sess', touch. cbn [_SessionData.session_id].
    by rewrite accumulated_session_id. }
  destruct (to_summary_returns sess') as (summary & Hsum & _); [lia .. |].
  rewrite Hsum. cbn [fst snd]. exists summary. split; [done |].
  unfold get_session_summary. rewrite get_setitem_eq. split; [done |].
  apply to_summary_Ok in Hsum as (-> & -> & -> & -> & _). by rewrite Hid', Hc, Hd, Hn.
Qed.

Lemma submit_samples_returns_summary_witness :
  reachable store_s1
  ∧ PyDict.get "s1" store_s1 = Some (_SessionData.mk "s1" 0 0 0 t0)
  ∧ one_minute_50 ≠ []
  ∧ forallb (valid_sample "s1") one_minute_50 = true
  ∧ 0 + sum_of TypingSample.chars_typed one_minute_50 < 2 ^ 1023
  ∧ 0 + sum_of TypingSample.duration_ms one_minute_50 < 2 ^ 1023
  ∧ ∃ summary,
      (typing_router.submit_samples (SubmissionRequest.mk "s1" one_minute_50) (t0 + 2)
         store_s1).2 = Return summary
      ∧ get_session_summary "s1"
          (typing_router.submit_samples (SubmissionRequest.mk "s1" one_minute_50)
             (t0 + 2) store_s1).1 = Ok summary.
Proof.
  split; [exact store_s1_reachable |].
  split; [vm_compute; reflexivity |].
  split; [discriminate |].
  split; [vm_compute; reflexivity |].
  split; [reflexivity |].
  split; [reflexivity |].
  destruct (submit_samples_returns_summary (SubmissionRequest.mk "s1" one_minute_50)
              (t0 + 2) store_s1 (_SessionData.mk "s1" 0 0 0 t0))
    as (summary & Hr & Hs & _).
  - exact store_s1_reachable.
  - vm_compute; reflexivity.
  - discriminate.
  - vm_compute; reflexivity.
  - reflexivity.
  - reflexivity.
  - exists summary. split; [exact Hr | exact Hs].
Defined.

Lemma not_found_as_404_iff {A} (r : result A) detail :
  typing_router.not_found_as_404 r = HTTPException 404 detail
  ↔ is_not_found r = true ∧ detail = "session not found".
Proof.
  destruct r as [a | []]; cbn; split; try done; try by intros [? _].
  - by intros [= <-].
  - by intros [_ ->].
Qed.

Lemma get_summary_404 sid st :
  typing_router.get_summary sid st = HTTPException 404 "session not found"
  ↔ PyDict.get sid st = None.
Proof.
  unfold typing_router.get_summary.
  rewrite not_found_as_404_iff, get_session_summary_not_found. tauto.
Qed.

Lemma get_stats_404 sid st :
  typing_router.get_stats sid st = HTTPException 404 "session not found"
  ↔ PyDict.get sid st = None.
Proof.
  unfold typing_router.get_stats.
  rewrite not_found_as_404_iff, get_session_stats_not_found. tauto.
Qed.

(** X17: the read handlers answer 404 exactly when the session is not
    registered, and raise no other [HTTPException]. *)
Theorem read_handlers_404 sid st :
  (typing_router.get_summary sid st = HTTPException 404 "session not found"
   ↔ PyDict.get sid st = None)
  ∧ (typing_router.get_stats sid st = HTTPException 404 "session not found"
     ↔ PyDict.get sid st = None)
  ∧ (∀ code detail, typing_router.get_summary sid st = HTTPException code detail →
       code = 404 ∧ detail = "session not found")
  ∧ (∀ code detail, typing_router.get_stats sid st = HTTPException code detail →
       code = 404 ∧ detail = "session not found").
Proof.
  split; [apply get_summary_404 |]. split; [apply get_stats_404 |].
  unfold typing_router.get_summary, typing_router.get_stats.
  split; intros code detail; unfold typing_router.not_found_as_404.
  - destruct (get_session_summary sid st) as [? | e]; [done |].
    destruct (is_KeyError e); [| done]. by intros [= <- <-].
  - destruct (get_session_stats sid st) as [? | e]; [done |].
    destruct (is_KeyError e); [| done]. by intros [= <- <-].
Qed.

(** X18: [delete_session] answers 404 and changes nothing exactly when
    the session is not registered, and otherwise answers that the session
    is deleted. After it, whichever way it went, both reads of the id and
    a second [delete_session] answer 404. *)
Theorem delete_session_then_404 sid st :
  let out := typing_router.delete_session sid st in
  (PyDict.get sid st = None →
   out = (st, HTTPException 404 "session not found"))
  ∧ (is_Some (PyDict.get sid st) → out.2 = Return [("status", "deleted")])
  ∧ typing_router.get_summary sid out.1 = HTTPException 404 "session not found"
  ∧ typing_router.get_stats sid out.1 = HTTPException 404 "session not found"
  ∧ typing_router.delete_session sid out.1
    = (out.1, HTTPException 404 "session not found").
Proof.
  cbv zeta.
  assert (∀ st', PyDict.get sid st' = None →
            typing_router.delete_session sid st'
            = (st', HTTPException 404 "session not found")) as Hmissing.
  { intros st' Hget. unfold typing_router.delete_session, clear_session.
    by rewrite Hget. }
  assert (PyDict.get sid (typing_router.delete_session sid st).1 = None) as Hgone.
  { unfold typing_router.delete_session, clear_session.
    destruct (PyDict.get sid st) eqn:Hget; cbn [fst]; [apply get_delitem_eq | done]. }
  split; [apply Hmissing |]. split.
  { intros [d Hget]. unfold typing_router.delete_session, clear_session.
    by rewrite Hget. }
  unfold typing_router.get_summary, typing_router.get_stats,
    get_session_summary, get_session_stats.
  rewrite Hgone. repeat split. by apply Hmissing.
Qed.

(** X19: the id that [create_session] puts in its response body is not
    empty, and from then on neither [submit_samples] for that id nor a
    read of it answers 404. *)
Theorem created_session_is_found payload uuid now st :
  ∃ sid,
    (typing_router.create_session payload uuid now st).2 = [("session_id", sid)]
    ∧ sid ≠ ""
    ∧ (∀ request now' detail,
         SubmissionRequest.session_id request = sid →
         (typing_router.submit_samples request now'
            (typing_router.create_session payload uuid now st).1).2
         ≠ HTTPException 404 detail)
    ∧ typing_router.get_summary sid (typing_router.create_session payload uuid now st).1
      ≠ HTTPException 404 "session not found"
    ∧ typing_router.get_stats sid (typing_router.create_session payload uuid now st).1
      ≠ HTTPException 404 "session not found".
Proof.
  unfold typing_router.create_session.
  set (sid := sid_or_uuid (SessionCreate.session_id payload) uuid).
  assert (∃ st' d,
            create_or_get_session (SessionCreate.session_id payload) uuid now st
            = (st', sid) ∧ PyDict.get sid st' = Some d) as (st' & d & -> & Hget).
  { destruct (PyDict.get sid st) as [d |] eqn:Hget.
    - exists st, d. by rewrite (create_existing _ _ _ _ d Hget).
    - eexists _, _. rewrite (create_fresh _ _ _ _ Hget). split; [done |].
      apply get_setitem_eq. }
  exists sid. cbn [fst snd]. split; [done |]. split; [apply sid_or_uuid_nonempty |].
  split; [| split].
  - intros request now' detail Hsid.
    destruct (decide (SubmissionRequest.samples request = [])) as [Hs | Hne].
    { by rewrite submit_samples_empty. }
    destruct (forallb (valid_sample (SubmissionRequest.session_id request))
                (SubmissionRequest.samples request)) eqn:Hall.
    + rewrite submit_samples_valid by done.
      rewrite Hsid. rewrite Hsid in Hall.
      rewrite (add_samples_all_valid sid _ now' st' d) by done. cbv zeta.
      destruct (to_summary_not_lookup_or_value (touch now'
        (foldl (λ acc s, accumulate s acc) d (SubmissionRequest.samples request))))
        as [Hnf _].
      destruct (_SessionData.to_summary _) as [summary | e]; [done |].
      cbn in Hnf. destruct e; try done; cbn; done.
    + destruct (submit_samples_invalid request now' st' Hne Hall) as [d' ->]. done.
  - intros H404%get_summary_404. congruence.
  - intros H404%get_stats_404. congruence.
Qed.

(** ** The request models *)

Section validators.
Variable isspace : ascii → bool.

Lemma lstrip_chars_shape (cs : list ascii) :
  (PyStr.lstrip_chars isspace cs = [] ∧ Forall (λ c, isspace c = true) cs)
  ∨ ∃ c rest, PyStr.lstrip_chars isspace cs = c :: rest ∧ isspace c = false
              ∧ c ∈ cs.
Proof.
  induction cs as [| c cs IH]; [by left |]. cbn.
  destruct (isspace c) eqn:Hc.
  - destruct IH as [[-> Hall] | (c' & rest & -> & Hc' & Hin)].
    + left. split; [done | by constructor].
    + right. exists c', rest. repeat split; try done. by right.
  - right. exists c, cs. repeat split; try done. by left.
Qed.

Lemma lstrip_chars_nil (cs : list ascii) :
  PyStr.lstrip_chars isspace cs = [] ↔ Forall (λ c, isspace c = true) cs.
Proof.
  split.
  - intros Hnil. destruct (lstrip_chars_shape cs) as [[_ ?] | (c & rest & Heq & _)];
      [done | congruence].
  - induction 1 as [| c cs Hc _ IH]; [done |]. cbn. by rewrite Hc.
Qed.

Lemma lstrip_chars_all_space (cs : list ascii) :
  Forall (λ c, isspace c = true) (PyStr.lstrip_chars isspace cs) →
  Forall (λ c, isspace c = true) cs.
Proof.
  intros Hall. destruct (lstrip_chars_shape cs) as [[_ ?] | (c & rest & Heq & Hc & _)];
    [done |].
  rewrite Heq in Hall. apply Forall_cons in Hall as [? _]. congruence.
Qed.

(** [s.strip()] is empty exactly when [s] is white space throughout. *)
Lemma strip_empty (s : string) :
  PyStr.strip isspace s = ""
  ↔ Forall (λ c, isspace c = true) (String.list_ascii_of_string s).
Proof.
  unfold PyStr.strip.
  set (cs := String.list_ascii_of_string s).
  assert (∀ l, String.string_of_list_ascii l = "" ↔ l = []) as Hnil
    by (intros [| ? ?]; done).
  rewrite Hnil. split.
  - intros Hrev. apply (f_equal reverse) in Hrev. rewrite reverse_involutive in Hrev.
    cbn in Hrev. apply lstrip_chars_nil in Hrev.
    apply lstrip_chars_all_space. by rewrite Forall_reverse in Hrev.
  - intros Hall. apply lstrip_chars_nil in Hall. by rewrite Hall.
Qed.

(** X20: the validator of [TypingSample.session_id] accepts exactly the
    strings that hold a character that is not white space, and hands them
    on as they are, white space around them included; every other string
    is refused with the one [ValueError]. *)
Theorem session_id_not_empty_accepts (v : string) :
  (TypingSample.session_id_not_empty isspace v = Ok v
   ↔ ∃ c, c ∈ String.list_ascii_of_string v ∧ isspace c = false)
  ∧ (∀ v', TypingSample.session_id_not_empty isspace v = Ok v' → v' = v ∧ v ≠ "")
  ∧ ∀ e, TypingSample.session_id_not_empty isspace v = Raise e →
      e = ValueError "session_id must be a non-empty string".
Proof.
  unfold TypingSample.session_id_not_empty, PyStr.falsy.
  assert (bool_decide (PyStr.strip isspace v = "") = true
          ↔ Forall (λ c, isspace c = true) (String.list_ascii_of_string v)) as Hstrip
    by (rewrite bool_decide_eq_true; apply strip_empty).
  split; [| split].
  - split.
    + destruct (_ || _) eqn:Hor; [done |]. intros _.
      apply orb_false_iff in Hor as [_ Hs].
      apply not_true_iff_false in Hs. rewrite Hstrip in Hs.
      apply not_Forall_Exists in Hs; [| intros c; apply _].
      apply Exists_exists in Hs as (c & Hin & Hc). exists c. split; [done |].
      by apply not_true_is_false.
    + intros (c & Hin & Hc).
      destruct (_ || _) eqn:Hor; [| done]. exfalso.
      apply orb_true_iff in Hor as [Hv%bool_decide_eq_true | Hs].
      * subst v. by apply elem_of_nil in Hin.
      * apply Hstrip in Hs. rewrite Forall_forall in Hs. specialize (Hs c Hin).
        congruence.
  - intros v'. destruct (_ || _) eqn:Hor; [done |]. intros [= <-]. split; [done |].
    apply orb_false_iff in Hor as [Hv _]. by apply bool_decide_eq_false in Hv.
  - intros e. destruct (_ || _); [by intros [= <-] | done].
Qed.

Lemma accepted_sample_spec (s : TypingSample.t) :
  TypingSample.accepted isspace s = true →
  TypingSample.session_id s ≠ ""
  ∧ 0 ≤ TypingSample.chars_typed s ∧ 0 ≤ TypingSample.duration_ms s.
Proof.
  unfold TypingSample.accepted.
  destruct (TypingSample.session_id_not_empty isspace _) as [v' |] eqn:Hv; [| done].
  intros [Hc%Z.leb_le Hd%Z.leb_le]%andb_true_iff. split; [| done].
  revert Hv. unfold TypingSample.session_id_not_empty, PyStr.falsy.
  destruct (_ || _) eqn:Hor; [done |]. intros _.
  apply orb_false_iff in Hor as [Hv _]. by apply bool_decide_eq_false in Hv.
Qed.

(** On samples with counters that are not negative the handler's loop
    stops only at a sample that names another session. *)
Lemma check_samples_accepted sid samples :
  forallb (TypingSample.accepted isspace) samples = true →
  match typing_router.check_samples sid samples with
  | Some (code, detail) =>
      code = 400 ∧ detail = "sample.session_id does not match request.session_id"
      ∧ ∃ s, s ∈ samples ∧ TypingSample.session_id s ≠ sid
  | None => Forall (λ s, TypingSample.session_id s = sid) samples
  end.
Proof.
  induction samples as [| s samples IH]; [intros _; by constructor |].
  cbn [forallb typing_router.check_samples].
  intros [Hs Hall]%andb_true_iff. apply accepted_sample_spec in Hs as (_ & Hc & Hd).
  case_bool_decide as Hid.
  { repeat split. exists s. split; [by left | done]. }
  destruct (Z.ltb_spec (TypingSample.chars_typed s) 0); [lia |].
  destruct (Z.ltb_spec (TypingSample.duration_ms s) 0); [lia |]. cbn [orb].
  specialize (IH Hall). destruct (typing_router.check_samples sid samples) as [[code detail] |].
  - destruct IH as (-> & -> & s' & Hin & Hne). repeat split.
    exists s'. split; [by right | done].
  - constructor; [| done]. by destruct (decide (TypingSample.session_id s = sid)).
Qed.

(** X21: for a request its model accepts, in every registry the program
    can reach, the only 400 of [submit_samples] is the one for a sample
    that names another session than the request, and it is given exactly
    when there is such a sample: the handler's checks for an empty batch
    and for negative counters never fire. *)
Theorem accepted_request_400_is_mismatch request now st :
  SubmissionRequest.accepted isspace request = true →
  reachable st →
  ((∃ s, s ∈ SubmissionRequest.samples request
         ∧ TypingSample.session_id s ≠ SubmissionRequest.session_id request)
   → typing_router.submit_samples request now st
     = (st, HTTPException 400 "sample.session_id does not match request.session_id"))
  ∧ ∀ detail,
      (typing_router.submit_samples request now st).2 = HTTPException 400 detail →
      detail = "sample.session_id does not match request.session_id"
      ∧ ∃ s, s ∈ SubmissionRequest.samples request
             ∧ TypingSample.session_id s ≠ SubmissionRequest.session_id request.
Proof.
  unfold SubmissionRequest.accepted, SubmissionRequest.samples_not_empty.
  intros Hacc Hwf%reachable_wf.
  destruct (SubmissionRequest.samples request) as [| s0 samples0] eqn:Hs; [done |].
  pose proof (check_samples_accepted (SubmissionRequest.session_id request) _ Hacc)
    as Hcheck.
  assert (SubmissionRequest.samples request ≠ []) as Hne by (by rewrite Hs).
  destruct (typing_router.check_samples _ (s0 :: samples0)) as [[code d] |] eqn:Hc.
  - destruct Hcheck as (-> & -> & Hex).
    assert (typing_router.submit_samples request now st
            = (st, HTTPException 400
                     "sample.session_id does not match request.session_id")) as ->
      by (unfold typing_router.submit_samples; by rewrite Hs, Hc).
    split; [done |]. by intros detail [= <-].
  - split.
    { intros (s & Hin & Hneq). rewrite Forall_forall in Hcheck.
      by specialize (Hcheck s Hin). }
    intros detail H400. exfalso.
    assert (forallb (valid_sample (SubmissionRequest.session_id request))
              (SubmissionRequest.samples request) = true) as Hall
      by (rewrite Hs; by apply check_samples_None).
    destruct (PyDict.get (SubmissionRequest.session_id request) st) as [sess |] eqn:Hget.
    + destruct (submit_samples_registered request now st sess Hwf Hne Hall Hget) as
        [(summary & _ & Hr) | (msg & Hr)]; congruence.
    + rewrite submit_samples_unregistered in H400 by done. done.
Qed.

End validators.

(** The white space of ASCII, for an instance of the parameter. *)
Lemma accepted_request_400_is_mismatch_witness :
  SubmissionRequest.accepted Ascii.is_space (SubmissionRequest.mk "s1" mixed_batch) = true
  ∧ reachable store_s1
  ∧ ((∃ s, s ∈ mixed_batch ∧ TypingSample.session_id s ≠ "s1")
     → typing_router.submit_samples (SubmissionRequest.mk "s1" mixed_batch) (t0 + 2)
         store_s1
       = (store_s1,
          HTTPException 400 "sample.session_id does not match request.session_id")).
Proof.
  split; [vm_compute; reflexivity |].
  split; [exact store_s1_reachable |].
  apply (accepted_request_400_is_mismatch Ascii.is_space
           (SubmissionRequest.mk "s1" mixed_batch) (t0 + 2) store_s1).
  - vm_compute; reflexivity.
  - exact store_s1_reachable.
Defined.

End router_extras.
